(** * steps/container.py: the docker test-container handle

    A shallow embedding of [Container] and [ExecException] from
    [steps/container.py], with the docker client [d], the logger, the clock
    and the filesystem kept as an explicit world that every method threads
    through.  Python exceptions are an outcome of each step; mutations done
    before an exception stay in the world. *)

From Stdlib Require Import ZArith Lia Ascii.
From stdpp Require Import gmap strings list fin_maps pretty.

Open Scope Z_scope.
Open Scope string_scope.
Open Scope list_scope.

(** ** Python values that travel through [**kwargs] *)

(** Environment mappings are [str -> str] dictionaries; the other shapes are
    what the step files hand over as keyword arguments. *)
Inductive pyval :=
| PNone
| PBool (b : bool)
| PInt (z : Z)
| PStr (s : string)
| PList (l : list string)
| PDict (m : gmap string string).

(** [type(v).__name__], as the messages of Python quote it. *)
Definition py_type_name (v : pyval) : string :=
  match v with
  | PNone => "NoneType"
  | PBool _ => "bool"
  | PInt _ => "int"
  | PStr _ => "str"
  | PList _ => "list"
  | PDict _ => "dict"
  end.

(** ** Exceptions *)

(** [ExecException] is the class of the module (message, then the [output]
    attribute, [None] by default); the others are the builtin classes the
    module can meet, and [EngineError] stands for whatever the docker client
    raises ([docker.errors.APIError] and friends).  All of them derive from
    [Exception]. *)
Inductive exn :=
| AttributeError (what : string)
| TypeError (what : string)
| ValueError (what : string)
| OSError (what : string)
| EngineError (what : string)
| ExecException (message : string) (output : option string).

(** ** What the engine hands back *)

(** The dictionary returned by [d.create_container]; only ['Id'] is read. *)
Record container_ref := { Id : string }.

(** The entries of [d.inspect_container] the module reads:
    [['State']['Running']] and [['NetworkSettings']['IPAddress']]. *)
Record inspect_info := { State_Running : bool; NetworkSettings_IPAddress : string }.

(** Keyword arguments of the [d.create_container] request. *)
Record create_request := {
  cr_image : string;
  cr_entrypoint : option pyval;
  cr_volumes : option (list string);
  cr_host_config : gmap string pyval;
  cr_kwargs : gmap string pyval
}.

Inductive level := DEBUG | INFO | ERROR.

Inductive logarg := LStr (s : string) | LExn (e : exn).

(** ** Events: every call that leaves the process *)
Inductive event :=
| EvLog (lvl : level) (msg : string) (args : list logarg)
| EvLogCreating (env : gmap string string) (image : string)
| EvSleep (seconds : Z)
| EvCreateContainer (req : create_request)
| EvStart (c : container_ref)
| EvKill (c : container_ref)
| EvRemoveContainer (c : container_ref)
| EvInspectContainer (id : string)
| EvLogs (id : string)
| EvExecCreate (c : option container_ref) (cmd : string)
| EvExecStart (inst : string) (detach : bool)
| EvExecInspect (inst : string)
| EvRemoveImage (image : string) (force : bool)
| EvMakedirs (path : string)
| EvOpen (path : string).

Definition is_create (e : event) : bool :=
  match e with EvCreateContainer _ => true | _ => false end.
Definition is_start (e : event) : bool :=
  match e with EvStart _ => true | _ => false end.
Definition is_kill (e : event) : bool :=
  match e with EvKill _ => true | _ => false end.
Definition is_remove (e : event) : bool :=
  match e with EvRemoveContainer _ => true | _ => false end.
Definition is_inspect (e : event) : bool :=
  match e with EvInspectContainer _ => true | _ => false end.
Definition is_logs (e : event) : bool :=
  match e with EvLogs _ => true | _ => false end.
Definition is_exec_create (e : event) : bool :=
  match e with EvExecCreate _ _ => true | _ => false end.
Definition is_exec_start (e : event) : bool :=
  match e with EvExecStart _ _ => true | _ => false end.
Definition is_exec_inspect (e : event) : bool :=
  match e with EvExecInspect _ => true | _ => false end.
Definition is_remove_image (e : event) : bool :=
  match e with EvRemoveImage _ _ => true | _ => false end.
Definition is_makedirs (e : event) : bool :=
  match e with EvMakedirs _ => true | _ => false end.
Definition is_open (e : event) : bool :=
  match e with EvOpen _ => true | _ => false end.
Definition is_sleep (e : event) : bool :=
  match e with EvSleep _ => true | _ => false end.
Definition is_error_log (e : event) : bool :=
  match e with EvLog ERROR _ _ => true | _ => false end.

(** Number of events of one kind in a trace. *)
Fixpoint count_ev (kind : event -> bool) (t : list event) : nat :=
  match t with
  | [] => O
  | e :: t' => if kind e then S (count_ev kind t') else count_ev kind t'
  end.

(** ** The docker client [d] and the operating system

    The engine is an external collaborator: each endpoint is a family of
    replies, indexed by how many requests of that kind were made before and
    by the arguments of the request.  A reply is a value or the exception
    the client raises.  [d.logs(..., stream=False)] returns a [bytes]
    object: the reply of [logs_reply] is the sequence of its bytes, one
    character per byte. *)
Record Engine := {
  create_host_config_reply : gmap string pyval -> exn + gmap string pyval;
  create_container_reply : nat -> create_request -> exn + container_ref;
  start_reply : nat -> container_ref -> option exn;
  kill_reply : nat -> container_ref -> option exn;
  remove_container_reply : nat -> container_ref -> option exn;
  inspect_container_reply : nat -> string -> exn + inspect_info;
  logs_reply : nat -> string -> exn + string;
  exec_create_reply : nat -> option container_ref -> string -> exn + string;
  exec_start_reply : nat -> string -> bool -> exn + string;
  exec_inspect_reply : nat -> string -> exn + option Z;
  remove_image_reply : nat -> string -> bool -> option exn;
  makedirs_reply : nat -> string -> option exn;
  open_reply : nat -> string -> option exn
}.

(** Library functions of Python and docker-py that the module calls and
    whose code is not part of it. *)
Record PyLib := {
  (** [json.loads] on a text that holds an environment object. *)
  json_loads : string -> exn + gmap string string;
  (** [int] on a [str]. *)
  int_of_str : string -> option Z;
  (** [docker.utils.utils.create_host_config.__code__.co_varnames]. *)
  create_host_config_varnames : list string
}.

(** ** The handle *)
Record Handle := {
  image_id : string;
  container : option container_ref;
  name : option string;
  ip_address : option string;
  output_dir : string;
  save_output : bool;
  remove_image : bool;
  kwargs : gmap string pyval;
  running : bool;
  volumes : option (list string);
  environ : gmap string string;
  entrypoint : option pyval
}.

Inductive fsnode := Dir | File (content : string).

(** The world: the handle [self], the process environment [os.environ], the
    filesystem, and the trace of events, most recent first. *)
Record world := {
  self : Handle;
  os_environ : gmap string string;
  fs : gmap string fsnode;
  trace : list event
}.

(** ** A state and exception monad *)

(** [Diverge] is what a loop or recursion started with too little fuel
    yields; no Python run ends there. *)
Inductive outcome (A : Type) :=
| Ok (a : A)
| Raise (e : exn)
| Diverge.
Arguments Ok {A} a.
Arguments Raise {A} e.
Arguments Diverge {A}.

Definition M (A : Type) : Type := world -> outcome A * world.

Definition ret {A} (a : A) : M A := fun w => (Ok a, w).

Definition bind {A B} (c : M A) (k : A -> M B) : M B := fun w =>
  match c w with
  | (Ok a, w') => k a w'
  | (Raise e, w') => (Raise e, w')
  | (Diverge, w') => (Diverge, w')
  end.

Definition raise {A} (e : exn) : M A := fun w => (Raise e, w).

(** [try: body except ...: handler e]; every class of [exn] derives from
    [Exception], so [except Exception] and a bare [except] catch alike. *)
Definition try_except {A} (body : M A) (handler : exn -> M A) : M A := fun w =>
  match body w with
  | (Raise e, w') => handler e w'
  | r => r
  end.

Declare Scope py_scope.
Delimit Scope py_scope with py.
Notation "x <- c ;; k" := (bind c (fun x => k))
  (at level 100, c at next level, right associativity) : py_scope.
Notation "c ;; k" := (bind c (fun _ => k))
  (at level 100, right associativity) : py_scope.
Open Scope py_scope.

Definition with_self (h : Handle) (w : world) : world :=
  {| self := h; os_environ := os_environ w; fs := fs w; trace := trace w |}.
Definition with_fs (f : gmap string fsnode) (w : world) : world :=
  {| self := self w; os_environ := os_environ w; fs := f; trace := trace w |}.
Definition with_trace (t : list event) (w : world) : world :=
  {| self := self w; os_environ := os_environ w; fs := fs w; trace := t |}.

Definition get_self : M Handle := fun w => (Ok (self w), w).

Definition set_self (h : Handle) : M unit := fun w => (Ok tt, with_self h w).

Definition get_trace : M (list event) := fun w => (Ok (trace w), w).

Definition emit (e : event) : M unit := fun w => (Ok tt, with_trace (e :: trace w) w).

Definition get_fs : M (gmap string fsnode) := fun w => (Ok (fs w), w).

Definition set_fs (f : gmap string fsnode) : M unit := fun w => (Ok tt, with_fs f w).

Definition get_os_environ : M (gmap string string) := fun w => (Ok (os_environ w), w).

(** Attribute assignments [self.x = v]. *)
Definition with_container (v : option container_ref) (h : Handle) : Handle :=
  {| image_id := image_id h; container := v; name := name h; ip_address := ip_address h;
     output_dir := output_dir h; save_output := save_output h; remove_image := remove_image h;
     kwargs := kwargs h; running := running h; volumes := volumes h; environ := environ h;
     entrypoint := entrypoint h |}.
Definition with_name (v : option string) (h : Handle) : Handle :=
  {| image_id := image_id h; container := container h; name := v; ip_address := ip_address h;
     output_dir := output_dir h; save_output := save_output h; remove_image := remove_image h;
     kwargs := kwargs h; running := running h; volumes := volumes h; environ := environ h;
     entrypoint := entrypoint h |}.
Definition with_ip_address (v : option string) (h : Handle) : Handle :=
  {| image_id := image_id h; container := container h; name := name h; ip_address := v;
     output_dir := output_dir h; save_output := save_output h; remove_image := remove_image h;
     kwargs := kwargs h; running := running h; volumes := volumes h; environ := environ h;
     entrypoint := entrypoint h |}.
Definition with_running (v : bool) (h : Handle) : Handle :=
  {| image_id := image_id h; container := container h; name := name h; ip_address := ip_address h;
     output_dir := output_dir h; save_output := save_output h; remove_image := remove_image h;
     kwargs := kwargs h; running := v; volumes := volumes h; environ := environ h;
     entrypoint := entrypoint h |}.
Definition with_volumes (v : option (list string)) (h : Handle) : Handle :=
  {| image_id := image_id h; container := container h; name := name h; ip_address := ip_address h;
     output_dir := output_dir h; save_output := save_output h; remove_image := remove_image h;
     kwargs := kwargs h; running := running h; volumes := v; environ := environ h;
     entrypoint := entrypoint h |}.
Definition with_environ (v : gmap string string) (h : Handle) : Handle :=
  {| image_id := image_id h; container := container h; name := name h; ip_address := ip_address h;
     output_dir := output_dir h; save_output := save_output h; remove_image := remove_image h;
     kwargs := kwargs h; running := running h; volumes := volumes h; environ := v;
     entrypoint := entrypoint h |}.

Definition modify_self (f : Handle -> Handle) : M unit :=
  h <- get_self ;; set_self (f h).

(** [for x in xs: body x] *)
Fixpoint for_each {A} (xs : list A) (body : A -> M unit) : M unit :=
  match xs with
  | [] => ret tt
  | x :: xs' => body x ;; for_each xs' body
  end.

(** ** Strings *)

(** [c in s] for one character [c]. *)
Fixpoint has_char (c : ascii) (s : string) : bool :=
  match s with
  | EmptyString => false
  | String c' r => (Ascii.eqb c' c || has_char c r)%bool
  end.

(** [str(b)] for a [bytes] object [b], which is its [repr]: the letter b,
    then the bytes between quotes.  The quote is the apostrophe, or the
    double quote when the bytes hold an apostrophe and no double quote; the
    quote and the backslash are escaped with a backslash; tab, newline and
    carriage return are written with their letters; the other bytes below 32
    or above 126 are written in hexadecimal.  The characters 34, 39 and 92
    are the double quote, the apostrophe and the backslash. *)
Definition hex_digit (n : N) : ascii :=
  match n with
  | 0 => "0" | 1 => "1" | 2 => "2" | 3 => "3" | 4 => "4" | 5 => "5" | 6 => "6" | 7 => "7"
  | 8 => "8" | 9 => "9" | 10 => "a" | 11 => "b" | 12 => "c" | 13 => "d" | 14 => "e"
  | _ => "f"
  end%N%char.

Definition bytes_repr_byte (quote c : ascii) : string :=
  let n := N_of_ascii c in
  if (Ascii.eqb c quote || Ascii.eqb c "092")%bool then String "092" (String c "")
  else if Ascii.eqb c "009" then String "092" "t"
  else if Ascii.eqb c "010" then String "092" "n"
  else if Ascii.eqb c "013" then String "092" "r"
  else if ((n <? 32) || (126 <? n))%N%bool
       then String "092" (String "x" (String (hex_digit (n / 16)) (String (hex_digit (n mod 16)) "")))
       else String c "".

Fixpoint bytes_repr_body (quote : ascii) (b : string) : string :=
  match b with
  | EmptyString => EmptyString
  | String c r => bytes_repr_byte quote c +:+ bytes_repr_body quote r
  end.

Definition bytes_repr (b : string) : string :=
  let quote : ascii :=
    (if (has_char "039" b && negb (has_char "034" b))%bool then "034" else "039")%char in
  String "b" (String quote (bytes_repr_body quote b +:+ String quote "")).

(** [s.split(sep)] for a one-character separator: never the empty list. *)
Fixpoint str_split (sep : ascii) (s : string) : list string :=
  match s with
  | EmptyString => [EmptyString]
  | String c r =>
      if Ascii.eqb c sep then EmptyString :: str_split sep r
      else match str_split sep r with
           | h :: t => String c h :: t
           | [] => [String c EmptyString]
           end
  end.

(** [s.split(sep, 1)]: one piece without [sep], else the text before the
    first [sep] and the whole rest. *)
Fixpoint str_split1 (sep : ascii) (s : string) : list string :=
  match s with
  | EmptyString => [EmptyString]
  | String c r =>
      if Ascii.eqb c sep then [EmptyString; r]
      else match str_split1 sep r with
           | h :: t => String c h :: t
           | [] => [String c EmptyString]
           end
  end.

(** [a, b = pieces] *)
Definition unpack2 (pieces : list string) : M (string * string) :=
  match pieces with
  | [a; b] => ret (a, b)
  | [] | [_] => raise (ValueError "not enough values to unpack")
  | _ => raise (ValueError "too many values to unpack")
  end.

(** ** Container: construction *)

Module Container.

(** [self.volumes.extend(xs)] *)
Definition volumes_extend (xs : list string) : M unit :=
  h <- get_self ;;
  match volumes h with
  | None => raise (AttributeError "'NoneType' object has no attribute 'extend'")
  | Some l => set_self (with_volumes (Some (l ++ xs)) h)
  end.

(** [Container.__init__]; the defaults of the signature are [name=None],
    [remove_image=False], [output_dir="output"], [save_output=True],
    [volumes=None], [entrypoint=None]. *)
Definition __init__ (image_id0 : string) (name0 : option string) (remove_image0 : bool)
    (output_dir0 : string) (save_output0 : bool) (volumes0 : option (list string))
    (entrypoint0 : option pyval) (kwargs0 : gmap string pyval) : M unit :=
  set_self {| image_id := image_id0; container := None; name := name0; ip_address := None;
              output_dir := output_dir0; save_output := save_output0;
              remove_image := remove_image0; kwargs := kwargs0; running := false;
              volumes := volumes0; environ := ∅; entrypoint := entrypoint0 |} ;;
  try_except
    (env <- get_os_environ ;;
     match env !! "CTF_DOCKER_VOLUMES" with
     | Some s =>
         h <- get_self ;;
         set_self (with_volumes (match volumes h with None => Some [] | Some _ => None end) h) ;;
         volumes_extend (str_split "," s)
     | None => ret tt
     end)
    (fun e => emit (EvLog ERROR "Cannot parse CTF_DOCKER_VOLUME variable %s" [LExn e])) ;;
  try_except
    (env <- get_os_environ ;;
     match env !! "CTF_DOCKER_ENV" with
     | Some s =>
         for_each (str_split "," s) (fun variable =>
           nv <- unpack2 (str_split1 "=" variable) ;;
           modify_self (fun h => with_environ (<[nv.1 := nv.2]> (environ h)) h))
     | None => ret tt
     end)
    (fun e => emit (EvLog ERROR "Cannot parse CTF_DOCKER_ENV variable, %s" [LExn e])).


(** ** Container: the methods that talk to the engine *)

Section WithEngine.
Context (d : Engine) (lib : PyLib).

(** A request to the engine, or to the operating system: the event joins the
    trace whatever the reply; the reply is the one for the number of earlier
    requests of the same kind. *)
Definition request {A} (ev : event) (kind : event -> bool) (reply : nat -> exn + A) : M A :=
  t <- get_trace ;;
  emit ev ;;
  match reply (count_ev kind t) with
  | inl e => raise e
  | inr a => ret a
  end.

Definition request_ (ev : event) (kind : event -> bool) (reply : nat -> option exn) : M unit :=
  t <- get_trace ;;
  emit ev ;;
  match reply (count_ev kind t) with
  | Some e => raise e
  | None => ret tt
  end.

(** [Container.inspect] *)
Definition inspect : M (option inspect_info) :=
  h <- get_self ;;
  match container h with
  | Some c =>
      i <- request (EvInspectContainer (Id c)) is_inspect
             (fun n => inspect_container_reply d n (Id c)) ;;
      ret (Some i)
  | None => ret None
  end.

(** The function [remove_image] of the class.  On an instance the name
    [remove_image] is the attribute that [__init__] assigns, which hides
    this function; it is reached as [Container.remove_image(handle)] only. *)
Definition remove_image_method (force : bool) : M unit :=
  h <- get_self ;;
  emit (EvLog INFO ("Removing image " +:+ image_id h) []) ;;
  request_ (EvRemoveImage (image_id h) force) is_remove_image
    (fun n => remove_image_reply d n (image_id h) force).

(** [self.remove_image]: attribute lookup finds the entry of the instance
    dictionary, the boolean stored by [__init__]. *)
Definition getattr_remove_image (h : Handle) : pyval := PBool (remove_image h).

(** [v()] for the values of [pyval]: none of them is callable. *)
Definition py_call (v : pyval) : M unit :=
  match v with
  | PNone => raise (TypeError "'NoneType' object is not callable")
  | PBool _ => raise (TypeError "'bool' object is not callable")
  | PInt _ => raise (TypeError "'int' object is not callable")
  | PStr _ => raise (TypeError "'str' object is not callable")
  | PList _ => raise (TypeError "'list' object is not callable")
  | PDict _ => raise (TypeError "'dict' object is not callable")
  end.

(** [if v:] *)
Definition truthy (v : pyval) : bool :=
  match v with
  | PNone => false
  | PBool b => b
  | PInt z => negb (z =? 0)%Z
  | PStr s => negb (String.eqb s "")
  | PList l => match l with [] => false | _ => true end
  | PDict m => negb (bool_decide (m = ∅))
  end.

(** [Container._remove_container]; [number] defaults to 1. *)
Fixpoint _remove_container (fuel : nat) (number : Z) : M unit :=
  match fuel with
  | O => fun w => (Diverge, w)
  | S fuel' =>
      h <- get_self ;;
      match container h with
      | None => raise (TypeError "'NoneType' object is not subscriptable")
      | Some c =>
          emit (EvLog INFO ("Removing container '" +:+ Id c +:+ "', " +:+ pretty number
                            +:+ " try...") []) ;;
          try_except
            (request_ (EvRemoveContainer c) is_remove
               (fun n => remove_container_reply d n c) ;;
             emit (EvLog INFO "Container '%s' removed" [LStr (Id c)]))
            (fun e =>
               emit (EvLog INFO ("Removing container '" +:+ Id c +:+ "' failed") []) ;;
               if (number >? 3)%Z then raise e
               else
                 emit (EvSleep 20) ;;
                 _remove_container fuel' (number + 1))
      end
  end.

(** [re.match(r'[\w\ ]', c)] on one character, the characters being the code
    points below 256: the space, and the word characters (letters, digits
    and numerics of Latin-1, and the underscore). *)
Definition re_word_or_space (c : ascii) : bool :=
  let n := N.to_nat (N_of_ascii c) in
  let between a b := (Nat.leb a n && Nat.leb n b)%bool in
  (between 32 32 || between 48 57 || between 65 90 || between 95 95 || between 97 122
   || between 170 170 || between 178 179 || between 181 181 || between 185 186
   || between 188 190 || between 192 214 || between 216 246 || between 248 255)%nat%bool.

(** ["".join([c for c in s if p(c)])] *)
Fixpoint str_filter (p : ascii -> bool) (s : string) : string :=
  match s with
  | EmptyString => EmptyString
  | String c r => if p c then String c (str_filter p r) else str_filter p r
  end.

(** [s.replace(a, b)] for one-character [a] and [b]. *)
Fixpoint str_replace (a b : ascii) (s : string) : string :=
  match s with
  | EmptyString => EmptyString
  | String c r => String (if Ascii.eqb c a then b else c) (str_replace a b r)
  end.

(** [with open(path, 'w') as f: print(b, file=f)], the [bytes] object [b]
    coming from the computation [produce] run while the file is open.
    [print] writes [str(b)], the [repr] of the bytes, and a newline. *)
Definition write_printed (path : string) (produce : M string) : M unit :=
  request_ (EvOpen path) is_open (fun n => open_reply d n path) ;;
  f <- get_fs ;;
  set_fs (<[path := File ""]> f) ;;
  b <- produce ;;
  f <- get_fs ;;
  set_fs (<[path := File (bytes_repr b +:+ String "010" "")]> f).

(** [os.makedirs(path)] *)
Definition makedirs (path : string) : M unit :=
  request_ (EvMakedirs path) is_makedirs (fun n => makedirs_reply d n path) ;;
  f <- get_fs ;;
  set_fs (<[path := Dir]> f).

(** The first block of [Container.stop]: saving the output. *)
Definition stop_save_output : M unit :=
  h <- get_self ;;
  if (running h && save_output h)%bool then
    match container h with
    | None => raise (AttributeError "'NoneType' object has no attribute 'get'")
    | Some c =>
        let name' :=
          match name h with
          | Some n => if truthy (PStr n) then n +:+ "_" +:+ Id c else Id c
          | None => Id c
          end in
        set_self (with_name (Some name') h) ;;
        let filename := str_replace " " "_" (str_filter re_word_or_space name') in
        let out_path := output_dir h +:+ "/" +:+ filename +:+ ".txt" in
        f <- get_fs ;;
        (if bool_decide (is_Some (f !! output_dir h)) then ret tt
         else makedirs (output_dir h)) ;;
        write_printed out_path
          (request (EvLogs (Id c)) is_logs (fun n => logs_reply d n (Id c)))
    end
  else ret tt.

(** The second block of [Container.stop]: killing and removing. *)
Definition stop_remove (fuel : nat) : M unit :=
  h <- get_self ;;
  match container h with
  | Some c =>
      emit (EvLog DEBUG ("Removing container '" +:+ Id c +:+ "'") []) ;;
      i <- inspect ;;
      match i with
      | None => raise (TypeError "'NoneType' object is not subscriptable")
      | Some info =>
          (if State_Running info then request_ (EvKill c) is_kill (fun n => kill_reply d n c)
           else ret tt) ;;
          modify_self (with_running false) ;;
          _remove_container fuel 1 ;;
          modify_self (with_container None)
      end
  | None => ret tt
  end.

(** [Container.stop] *)
Definition stop (fuel : nat) : M unit :=
  stop_save_output ;;
  stop_remove fuel.

(** [int(v)] inside [try: ... except: pass]: [None] when it raises. *)
Definition py_int (v : pyval) : option Z :=
  match v with
  | PInt z => Some z
  | PBool b => Some (if b then 1 else 0)%Z
  | PStr s => int_of_str lib s
  | PNone | PList _ | PDict _ => None
  end.

(** [x.update(...)] is found on dictionaries only. *)
Definition as_dict (v : pyval) : M (gmap string string) :=
  match v with
  | PDict m => ret m
  | _ => raise (AttributeError ("'" +:+ py_type_name v
                                +:+ "' object has no attribute 'update'"))
  end.

(** One turn of the loop over [host_c_args_names]. *)
Definition move_host_arg (acc : gmap string pyval * gmap string pyval) (arg : string)
    : gmap string pyval * gmap string pyval :=
  let '(host_args, kwargs) := acc in
  match kwargs !! arg with
  | Some v =>
      (<[arg := match py_int v with Some z => PInt z | None => v end]> host_args,
       delete arg kwargs)
  | None => (host_args, kwargs)
  end.

(** The keywords that [_create_container] passes to [d.create_container]
    itself; the same keyword once more in [**kwargs] is a [TypeError]. *)
Definition create_keywords : list string :=
  ["image"; "detach"; "entrypoint"; "volumes"; "host_config"].

(** [Container._create_container].  The dictionaries of [kwargs] are values
    here.  Lines 220 to 222 and 228 to 230 update the dictionary passed as
    [environment] in place and put it back into [kwargs]: what reaches the
    request below is that updated dictionary.  The same update is seen by
    whoever else holds that dictionary object (on the [__enter__] path it is
    the one kept in [self.kwargs]); the dictionaries of the caller are not
    part of the world, and the [kwargs] field of the handle keeps the value
    [__init__] stored. *)
Definition _create_container (kwargs : gmap string pyval) : M unit :=
  h <- get_self ;;
  if running h then emit (EvLog DEBUG "Container is running" [])
  else
    let vols := match volumes h with Some (v :: l) => Some (v :: l) | _ => None end in
    let volume_mount_points :=
      match vols with
      | Some l => Some (map (fun volume => hd "" (str_split ":" volume)) l)
      | None => None
      end in
    let host_args : gmap string pyval :=
      match vols with
      | Some l => {["binds" := PList l]}
      | None => ∅
      end in
    kwargs_env <- match kwargs !! "environment" with
                  | Some v => as_dict v
                  | None => ret ∅
                  end ;;
    let kwargs_env := environ h ∪ kwargs_env in
    let kwargs := <["environment" := PDict kwargs_env]> kwargs in
    kwargs <- match kwargs !! "env_json" with
              | Some v =>
                  env <- match v with
                         | PStr s => match json_loads lib s with
                                     | inl e => raise e
                                     | inr env => ret env
                                     end
                         | _ => raise (TypeError ("the JSON object must be str, bytes or bytearray, not "
                                                 +:+ py_type_name v))
                         end ;;
                  kwargs_env <- match kwargs !! "environment" with
                                | Some v => as_dict v
                                | None => ret ∅
                                end ;;
                  let kwargs_env := env ∪ kwargs_env in
                  ret (delete "env_json" (<["environment" := PDict kwargs_env]> kwargs))
              | None => ret kwargs
              end ;;
    emit (EvLog DEBUG ("Creating container from image '" +:+ image_id h +:+ "'...") []) ;;
    let host_c_args_names :=
      create_host_config_varnames lib ++ ["cpu_quota"; "cpu_period"; "mem_limit"] in
    let '(host_args, kwargs) := foldl move_host_arg (host_args, kwargs) host_c_args_names in
    env <- match kwargs !! "environment" with
           | Some (PDict m) => ret m
           | Some v => raise (AttributeError ("'" +:+ py_type_name v
                                              +:+ "' object has no attribute 'items'"))
           | None => raise (AttributeError "'NoneType' object has no attribute 'items'")
           end ;;
    emit (EvLogCreating env (image_id h)) ;;
    host_config <- match create_host_config_reply d host_args with
                   | inl e => raise e
                   | inr hc => ret hc
                   end ;;
    if existsb (fun k => bool_decide (is_Some (kwargs !! k))) create_keywords
    then raise (TypeError "create_container() got multiple values for keyword argument")
    else
      let req := {| cr_image := image_id h; cr_entrypoint := entrypoint h;
                    cr_volumes := volume_mount_points; cr_host_config := host_config;
                    cr_kwargs := kwargs |} in
      c <- request (EvCreateContainer req) is_create
             (fun n => create_container_reply d n req) ;;
      modify_self (with_container (Some c)).

(** The lines that [start] and [startWithCommand] share after the creation. *)
Definition start_created : M unit :=
  h <- get_self ;;
  match container h with
  | None => raise (AttributeError "'NoneType' object has no attribute 'get'")
  | Some c =>
      emit (EvLog DEBUG ("Starting container '" +:+ Id c +:+ "'...") []) ;;
      request_ (EvStart c) is_start (fun n => start_reply d n c) ;;
      modify_self (with_running true) ;;
      i <- inspect ;;
      match i with
      | None => raise (TypeError "'NoneType' object is not subscriptable")
      | Some info =>
          modify_self (with_ip_address (Some (NetworkSettings_IPAddress info)))
      end
  end.

(** [Container.start] *)
Definition start (kwargs : gmap string pyval) : M unit :=
  _create_container kwargs ;;
  start_created.

(** [Container.startWithCommand] *)
Definition startWithCommand (kwargs : gmap string pyval) : M unit :=
  (if bool_decide (is_Some (kwargs !! "tty"))
   then raise (TypeError "_create_container() got multiple values for keyword argument 'tty'")
   else _create_container (<["tty" := PBool true]> kwargs)) ;;
  start_created.

(** [d.exec_inspect(inst)['ExitCode']] *)
Definition exec_exit_code (inst : string) : M (option Z) :=
  request (EvExecInspect inst) is_exec_inspect (fun n => exec_inspect_reply d n inst).

(** The [while retcode is None] loop of [execute]; its value is the exit
    code the loop leaves in [retcode]. *)
Fixpoint poll_exit_code (fuel : nat) (inst cmd output : string) (count : Z)
    (retcode : option Z) : M Z :=
  match retcode with
  | Some rc => ret rc
  | None =>
      match fuel with
      | O => fun w => (Diverge, w)
      | S fuel' =>
          let count := (count + 1)%Z in
          retcode <- exec_exit_code inst ;;
          emit (EvSleep 1) ;;
          if (count >? 15)%Z
          then raise (ExecException ("Command " +:+ cmd +:+ " timed out, output: " +:+ output)
                        None)
          else poll_exit_code fuel' inst cmd output count retcode
      end
  end.

(** [Container.execute]; [detach] defaults to [False].  The value is [None]
    for a detached run and the output otherwise. *)
Definition execute (fuel : nat) (cmd : string) (detach : bool) : M (option string) :=
  h <- get_self ;;
  inst <- request (EvExecCreate (container h) cmd) is_exec_create
            (fun n => exec_create_reply d n (container h) cmd) ;;
  if detach then
    request (EvExecStart inst detach) is_exec_start
      (fun n => exec_start_reply d n inst detach) ;;
    ret None
  else
    output <- request (EvExecStart inst detach) is_exec_start
                (fun n => exec_start_reply d n inst detach) ;;
    retcode <- exec_exit_code inst ;;
    retcode <- poll_exit_code fuel inst cmd output 0 retcode ;;
    if negb (retcode =? 0)%Z
    then raise (ExecException ("Command " +:+ cmd +:+ " failed to execute, return code: "
                               +:+ pretty retcode) (Some output))
    else ret (Some output).

(** [Container.__enter__] *)
Definition __enter__ : M unit :=
  h <- get_self ;;
  start (kwargs h).

(** [Container.__exit__] *)
Definition __exit__ (fuel : nat) : M unit :=
  stop fuel ;;
  h <- get_self ;;
  if truthy (getattr_remove_image h) then py_call (getattr_remove_image h)
  else ret tt.

(** [with handle: body].  [__exit__] returns [None], so an exception of the
    body is raised again after it; an exception of [__exit__] itself takes
    its place. *)
Definition with_handle {A} (fuel : nat) (body : M A) : M A :=
  __enter__ ;;
  fun w =>
    match body w with
    | (Ok a, w') => (__exit__ fuel ;; ret a) w'
    | (Raise e, w') => (__exit__ fuel ;; raise e) w'
    | (Diverge, w') => (Diverge, w')
    end.

End WithEngine.

End Container.

Import Container.

(** * Vocabulary of the statements *)

(** [",".join(xs)] *)
Fixpoint join_comma (xs : list string) : string :=
  match xs with
  | [] => ""
  | x :: rest => match rest with [] => x | _ => x +:+ "," +:+ join_comma rest end
  end.

Definition env_entry (p : string * string) : string := p.1 +:+ "=" +:+ p.2.

Definition wf_pair (p : string * string) : Prop :=
  has_char "," p.1 = false /\ has_char "=" p.1 = false /\ has_char "," p.2 = false.

Definition dict_of_pairs (pairs : list (string * string)) : gmap string string :=
  foldl (fun m p => <[p.1 := p.2]> m) ∅ pairs.

(** The object that [__init__] receives, before any attribute is set. *)
Definition blank_handle : Handle :=
  {| image_id := ""; container := None; name := None; ip_address := None;
     output_dir := ""; save_output := false; remove_image := false; kwargs := ∅;
     running := false; volumes := None; environ := ∅; entrypoint := None |}.

(** A fresh process: the given environment, an empty filesystem, no event. *)
Definition fresh_world (env : gmap string string) : world :=
  {| self := blank_handle; os_environ := env; fs := ∅; trace := [] |}.

(** What a run of [_remove_container] on the container [c] may add to the
    trace: log records, removal requests for [c], and sleeps of 20 seconds. *)
Definition removal_event (c : container_ref) (e : event) : bool :=
  match e with
  | EvLog _ _ _ => true
  | EvRemoveContainer c' => String.eqb (Id c') (Id c)
  | EvSleep s => (s =? 20)%Z
  | _ => false
  end.

(** An engine for the examples: removal fails [remove_fails] times before
    it succeeds, the [n]-th inspection of an exec reports [exit_codes n], and
    every other request succeeds. *)
Definition example_engine (remove_fails : nat) (exit_codes : nat -> option Z) : Engine :=
  {| create_host_config_reply := fun args => inr args;
     create_container_reply := fun n _ => inr {| Id := "c0ffee" +:+ pretty n |};
     start_reply := fun _ _ => None;
     kill_reply := fun _ _ => None;
     remove_container_reply := fun n _ =>
       if (n <? remove_fails)%nat then Some (EngineError ("device busy " +:+ pretty n))
       else None;
     inspect_container_reply := fun n _ =>
       inr {| State_Running := true;
              NetworkSettings_IPAddress := "172.17.0." +:+ pretty (n + 2)%nat |};
     logs_reply := fun _ id => inr ("started " +:+ id);
     exec_create_reply := fun n _ _ => inr ("exec" +:+ pretty n);
     exec_start_reply := fun _ _ _ => inr "hello";
     exec_inspect_reply := fun n _ => inr (exit_codes n);
     remove_image_reply := fun _ _ _ => None;
     makedirs_reply := fun _ _ => None;
     open_reply := fun _ _ => None |}.

(** A handle as [start] leaves it: container [c], running. *)
Definition started_handle (name0 : option string) (ri : bool) (c : container_ref) : Handle :=
  {| image_id := "img"; container := Some c; name := name0; ip_address := Some "172.17.0.2";
     output_dir := "output"; save_output := true; remove_image := ri; kwargs := ∅;
     running := true; volumes := None; environ := ∅; entrypoint := None |}.

Definition started_world (name0 : option string) (ri : bool) (c : container_ref) : world :=
  {| self := started_handle name0 ri c; os_environ := ∅; fs := ∅; trace := [] |}.

(** A JSON text for the examples, [{"DEBUG": "1"}]; the character 34 is the
    double quote. *)
Definition example_env_json : string :=
  let q := String "034" "" in
  "{" +:+ q +:+ "DEBUG" +:+ q +:+ ": " +:+ q +:+ "1" +:+ q +:+ "}".

(** Library functions for the examples: the decoder knows the text above
    and finds no JSON value at the start of the other texts the examples
    give it, [int] reads unsigned decimals, and the host configuration has a
    few of the names of docker-py. *)
Definition example_lib : PyLib :=
  {| json_loads := fun s =>
       if String.eqb s example_env_json then inr {["DEBUG" := "1"]}
       else inl (ValueError "Expecting value: line 1 column 1 (char 0)");
     int_of_str := fun s =>
       match s with
       | "0" => Some 0%Z | "1" => Some 1%Z | "512" => Some 512%Z
       | _ => None
       end;
     create_host_config_varnames :=
       ["binds"; "port_bindings"; "privileged"; "network_mode"; "mem_limit"; "memswap_limit"] |}.

(** The world after [Container("img")] and [start()] in a fresh process. *)
Definition world_after_start (d : Engine) : world :=
  (bind (__init__ "img" None false "output" true None None ∅)
     (fun _ => start d example_lib ∅) (fresh_world ∅)).2.


(** An engine for the examples that refuses the creation, or the start,
    and is otherwise [example_engine]. *)
Definition refusing_engine (create_ok start_ok : bool) : Engine :=
  let d := example_engine 0 (fun _ => Some 0%Z) in
  {| create_host_config_reply := create_host_config_reply d;
     create_container_reply := fun n req =>
       if create_ok then create_container_reply d n req
       else inl (EngineError "no such image");
     start_reply := fun n c =>
       if start_ok then None else Some (EngineError "port is already allocated");
     kill_reply := kill_reply d;
     remove_container_reply := remove_container_reply d;
     inspect_container_reply := inspect_container_reply d;
     logs_reply := logs_reply d;
     exec_create_reply := exec_create_reply d;
     exec_start_reply := exec_start_reply d;
     exec_inspect_reply := exec_inspect_reply d;
     remove_image_reply := remove_image_reply d;
     makedirs_reply := makedirs_reply d;
     open_reply := open_reply d |}.

(** Between [w] and [w'] nothing was sent or logged, no file was touched,
    and the handle kept its container, its flag and its address. *)
Definition quiet (w w' : world) : Prop :=
  trace w' = trace w /\ fs w' = fs w
  /\ container (self w') = container (self w)
  /\ running (self w') = running (self w)
  /\ ip_address (self w') = ip_address (self w).

(** The world after [Container("img", **kwargs)] in a fresh process. *)
Definition constructed_world (kw : gmap string pyval) : world :=
  (__init__ "img" None false "output" true None None kw (fresh_world ∅)).2.

(** * Properties *)

(** ** Splitting and joining *)

Lemma str_split_nonempty sep s : str_split sep s <> [].
Proof. destruct s as [|c r]; simpl; [done|]. destruct (Ascii.eqb c sep); [done|]. by destruct (str_split sep r). Qed.

Lemma str_split_no_sep sep s : has_char sep s = false -> str_split sep s = [s].
Proof.
  induction s as [|c r IH]; simpl; [done|].
  destruct (Ascii.eqb c sep); simpl; [done|]. intros H. by rewrite IH.
Qed.

Lemma str_split_app sep a b :
  has_char sep a = false -> str_split sep (a +:+ String sep b) = a :: str_split sep b.
Proof.
  induction a as [|c r IH]; simpl.
  - by rewrite Ascii.eqb_refl.
  - destruct (Ascii.eqb c sep); simpl; [done|]. intros H. by rewrite IH.
Qed.

Lemma str_split1_no_sep sep s : has_char sep s = false -> str_split1 sep s = [s].
Proof.
  induction s as [|c r IH]; simpl; [done|].
  destruct (Ascii.eqb c sep); simpl; [done|]. intros H. by rewrite IH.
Qed.

Lemma str_split1_app sep a b :
  has_char sep a = false -> str_split1 sep (a +:+ String sep b) = [a; b].
Proof.
  induction a as [|c r IH]; simpl.
  - by rewrite Ascii.eqb_refl.
  - destruct (Ascii.eqb c sep); simpl; [done|]. intros H. by rewrite IH.
Qed.

Lemma has_char_app c a b : has_char c (a +:+ b) = (has_char c a || has_char c b)%bool.
Proof. induction a as [|x r IH]; simpl; [done|]. rewrite IH. by destruct (Ascii.eqb x c). Qed.

Lemma str_split_join_cons x rest :
  has_char "," x = false ->
  str_split "," (join_comma (x :: rest)) =
  x :: match rest with [] => [] | _ => str_split "," (join_comma rest) end.
Proof.
  intros Hx. destruct rest as [|y rest].
  - simpl. by apply str_split_no_sep.
  - change (join_comma (x :: y :: rest)) with (x +:+ String "," (join_comma (y :: rest))).
    by rewrite str_split_app.
Qed.

(** ** Construction *)

(** The loop over the entries of [CTF_DOCKER_ENV], as [__init__] runs it. *)
Local Abbreviation env_loop entries :=
  (for_each entries (fun variable =>
     nv <- unpack2 (str_split1 "=" variable) ;;
     modify_self (fun h => with_environ (<[nv.1 := nv.2]> (environ h)) h))).

Lemma env_loop_wf pairs tail w :
  Forall wf_pair pairs ->
  env_loop (map env_entry pairs ++ tail) w =
  env_loop tail
    (with_self (with_environ (foldl (fun m p => <[p.1 := p.2]> m) (environ (self w)) pairs)
                  (self w)) w).
Proof.
  revert w. induction pairs as [|[k v] pairs IH]; intros w Hwf.
  - simpl. by destruct w as [[] ? ? ?].
  - inversion Hwf as [|? ? [Hk1 [Hk2 Hv]] Hwf']; subst. simpl in Hk1, Hk2, Hv.
    change (map env_entry ((k, v) :: pairs) ++ tail)
      with (env_entry (k, v) :: (map env_entry pairs ++ tail)).
    cbn [for_each]. unfold bind at 1.
    unfold env_entry at 1. cbn [fst snd].
    change (k +:+ "=" +:+ v) with (k +:+ String "=" v).
    rewrite str_split1_app by done.
    cbn [unpack2 ret bind modify_self get_self set_self fst snd].
    rewrite IH by done. done.
Qed.

Lemma env_loop_bad bad rest w :
  has_char "=" bad = false ->
  env_loop (bad :: rest) w = (Raise (ValueError "not enough values to unpack"), w).
Proof.
  intros Hbad. cbn [for_each]. unfold bind at 1.
  rewrite str_split1_no_sep by done. reflexivity.
Qed.

Lemma env_loop_total entries w :
  exists w', (env_loop entries w = (Ok tt, w') \/ exists e, env_loop entries w = (Raise e, w'))
             /\ volumes (self w') = volumes (self w) /\ trace w' = trace w.
Proof.
  revert w. induction entries as [|x entries IH]; intros w.
  - exists w. split; [by left|done].
  - cbn [for_each]. unfold bind at 1.
    destruct (str_split1 "=" x) as [|a [|b [|c l]]].
    + exists w. split; [right; by eexists|done].
    + exists w. split; [right; by eexists|done].
    + cbn [unpack2 ret bind modify_self get_self set_self fst snd].
      destruct (IH (with_self (with_environ (<[a:=b]> (environ (self w))) (self w)) w))
        as [w' [H [Hv Ht]]].
      exists w'. split; [exact H|]. by rewrite Hv, Ht.
    + exists w. split; [right; by eexists|done].
Qed.


(** The second [try] block of [__init__], on the world the first one left. *)
Local Abbreviation env_block :=
  (try_except
     (env <- get_os_environ ;;
      match env !! "CTF_DOCKER_ENV" with
      | Some s => env_loop (str_split "," s)
      | None => ret tt
      end)
     (fun e => emit (EvLog ERROR "Cannot parse CTF_DOCKER_ENV variable, %s" [LExn e]))).

Lemma init_volumes_stage image name0 ri od so vols ep kw w :
  exists w1,
    __init__ image name0 ri od so vols ep kw w = env_block w1
    /\ os_environ w1 = os_environ w /\ environ (self w1) = ∅
    /\ match os_environ w !! "CTF_DOCKER_VOLUMES", vols with
       | Some s, Some _ =>
           volumes (self w1) = None
           /\ trace w1 = EvLog ERROR "Cannot parse CTF_DOCKER_VOLUME variable %s"
                           [LExn (AttributeError "'NoneType' object has no attribute 'extend'")]
                         :: trace w
       | Some s, None => volumes (self w1) = Some (str_split "," s) /\ trace w1 = trace w
       | None, _ => volumes (self w1) = vols /\ trace w1 = trace w
       end.
Proof.
  unfold __init__.
  unfold bind at 1. cbn [set_self].
  unfold bind at 1. unfold try_except at 1. unfold bind at 1.
  cbn [get_os_environ with_self os_environ].
  destruct (os_environ w !! "CTF_DOCKER_VOLUMES") as [s|]; [destruct vols as [l|]|];
    eexists; (split; [reflexivity|]); done.
Qed.

Lemma wf_pair_no_comma p : wf_pair p -> has_char "," (env_entry p) = false.
Proof.
  intros (Hk & _ & Hv). unfold env_entry. rewrite has_char_app, Hk. simpl. exact Hv.
Qed.

Lemma str_split_join_entries pairs :
  pairs <> [] -> Forall wf_pair pairs ->
  str_split "," (join_comma (map env_entry pairs)) = map env_entry pairs.
Proof.
  induction pairs as [|p pairs IH]; [done|]. intros _ Hwf.
  inversion Hwf as [|? ? Hp Hwf']; subst.
  change (map env_entry (p :: pairs)) with (env_entry p :: map env_entry pairs).
  rewrite str_split_join_cons by by apply wf_pair_no_comma.
  destruct pairs as [|q pairs]; [done|].
  change (map env_entry (q :: pairs)) with (env_entry q :: map env_entry pairs) in *.
  f_equal. by apply IH.
Qed.

Lemma str_split_join_bad pairs bad rest :
  Forall wf_pair pairs -> has_char "," bad = false ->
  exists tl, str_split "," (join_comma (map env_entry pairs ++ bad :: rest))
             = map env_entry pairs ++ bad :: tl.
Proof.
  induction pairs as [|p pairs IH]; intros Hwf Hbad.
  - cbn [map app]. rewrite str_split_join_cons by done. by eexists.
  - inversion Hwf as [|? ? Hp Hwf']; subst.
    destruct (IH Hwf' Hbad) as [tl Htl].
    change (map env_entry (p :: pairs) ++ bad :: rest)
      with (env_entry p :: (map env_entry pairs ++ bad :: rest)).
    rewrite str_split_join_cons by by apply wf_pair_no_comma.
    exists tl. cbn [map app]. f_equal.
    destruct (map env_entry pairs ++ bad :: rest) eqn:E; [by destruct (map env_entry pairs)|].
    exact Htl.
Qed.

Lemma init_env_stage w1 :
  exists w2,
    env_block w1 = (Ok tt, w2)
    /\ volumes (self w2) = volumes (self w1)
    /\ (trace w2 = trace w1
        \/ exists e, trace w2 = EvLog ERROR "Cannot parse CTF_DOCKER_ENV variable, %s" [LExn e]
                                :: trace w1)
    /\ (forall pairs, pairs <> [] -> Forall wf_pair pairs ->
        os_environ w1 !! "CTF_DOCKER_ENV" = Some (join_comma (map env_entry pairs)) ->
        environ (self w2) = foldl (fun m p => <[p.1 := p.2]> m) (environ (self w1)) pairs
        /\ trace w2 = trace w1)
    /\ (forall pairs bad rest, Forall wf_pair pairs ->
        has_char "," bad = false -> has_char "=" bad = false ->
        os_environ w1 !! "CTF_DOCKER_ENV"
          = Some (join_comma (map env_entry pairs ++ bad :: rest)) ->
        environ (self w2) = foldl (fun m p => <[p.1 := p.2]> m) (environ (self w1)) pairs
        /\ trace w2 = EvLog ERROR "Cannot parse CTF_DOCKER_ENV variable, %s"
                        [LExn (ValueError "not enough values to unpack")] :: trace w1).
Proof.
  unfold try_except. unfold bind at 1. cbn [get_os_environ].
  destruct (os_environ w1 !! "CTF_DOCKER_ENV") as [s|] eqn:Hs.
  - destruct (env_loop_total (str_split "," s) w1) as [w' [[H|[e H]] [Hv Ht]]].
    + exists w'. rewrite H. split; [done|]. split; [done|]. split; [by left|]. split.
      * intros pairs Hne Hwf [= ->].
        rewrite str_split_join_entries in H by done.
        rewrite <- (app_nil_r (map env_entry pairs)) in H.
        rewrite env_loop_wf in H by done. cbn in H. by injection H as <-.
      * intros pairs bad rest Hwf Hb1 Hb2 [= ->].
        destruct (str_split_join_bad pairs bad rest Hwf Hb1) as [tl Htl].
        rewrite Htl, env_loop_wf, env_loop_bad in H by done. discriminate.
    + exists (with_trace (EvLog ERROR "Cannot parse CTF_DOCKER_ENV variable, %s" [LExn e]
                          :: trace w') w').
      rewrite H. split; [done|]. split; [done|].
      split; [right; exists e; cbn; by rewrite Ht|]. split.
      * intros pairs Hne Hwf [= ->].
        rewrite str_split_join_entries in H by done.
        rewrite <- (app_nil_r (map env_entry pairs)) in H.
        rewrite env_loop_wf in H by done. cbn in H. discriminate.
      * intros pairs bad rest Hwf Hb1 Hb2 [= ->].
        destruct (str_split_join_bad pairs bad rest Hwf Hb1) as [tl Htl].
        rewrite Htl, env_loop_wf, env_loop_bad in H by done.
        injection H as <- <-. done.
  - exists w1. split; [done|]. split; [done|]. split; [by left|]. split; intros; discriminate.
Qed.

(** C1. Constructing a [Container] with an explicit volume list while
    [CTF_DOCKER_VOLUMES] is set does not merge the two lists: [self.volumes]
    is replaced by [None] before [extend] is called, the resulting
    [AttributeError] is caught, and the handle is left without any volume,
    neither the explicit entries nor those of the environment. *)
Theorem init_explicit_volumes_lost image name0 ri od so (l : list string) ep kw w s :
  os_environ w !! "CTF_DOCKER_VOLUMES" = Some s ->
  (__init__ image name0 ri od so (Some l) ep kw w).1 = Ok tt
  /\ volumes (self (__init__ image name0 ri od so (Some l) ep kw w).2) = None
  /\ In (EvLog ERROR "Cannot parse CTF_DOCKER_VOLUME variable %s"
           [LExn (AttributeError "'NoneType' object has no attribute 'extend'")])
        (trace (__init__ image name0 ri od so (Some l) ep kw w).2).
Proof.
  intros Hs.
  destruct (init_volumes_stage image name0 ri od so (Some l) ep kw w) as (w1 & -> & _ & _ & Hv).
  rewrite Hs in Hv. destruct Hv as [Hv Ht].
  destruct (init_env_stage w1) as (w2 & -> & Hv2 & Htr & _).
  cbn [fst snd]. split; [done|]. split; [congruence|].
  destruct Htr as [-> | [e ->]]; rewrite Ht; simpl; auto.
Qed.

Lemma init_explicit_volumes_lost_witness :
  let r := __init__ "img" None false "output" true (Some ["/a:/b:z"]) None ∅
             (fresh_world {["CTF_DOCKER_VOLUMES" := "/c:/d:z"]}) in
  r.1 = Ok tt /\ volumes (self r.2) = None.
Proof.
  destruct (init_explicit_volumes_lost "img" None false "output" true ["/a:/b:z"] None ∅
              (fresh_world {["CTF_DOCKER_VOLUMES" := "/c:/d:z"]}) "/c:/d:z")
    as (H1 & H2 & _); [reflexivity|].
  split; [exact H1 | exact H2].
Defined.

(** C9. Construction never raises, whatever the ambient overrides hold:
    [__init__] ends normally for every argument and every process
    environment.  For a well-formed [CTF_DOCKER_ENV] (entries [k=v] joined by
    commas) [environ] is the mapping of the entries, a later entry winning;
    when an entry has no [=], the entries before it are kept and the error is
    logged. *)
Theorem init_overrides_never_raise image name0 ri od so vols ep kw w :
  (__init__ image name0 ri od so vols ep kw w).1 = Ok tt
  /\ (forall pairs, pairs <> [] -> Forall wf_pair pairs ->
      os_environ w !! "CTF_DOCKER_ENV" = Some (join_comma (map env_entry pairs)) ->
      environ (self (__init__ image name0 ri od so vols ep kw w).2) = dict_of_pairs pairs)
  /\ (forall pairs bad rest, Forall wf_pair pairs ->
      has_char "," bad = false -> has_char "=" bad = false ->
      os_environ w !! "CTF_DOCKER_ENV"
        = Some (join_comma (map env_entry pairs ++ bad :: rest)) ->
      environ (self (__init__ image name0 ri od so vols ep kw w).2) = dict_of_pairs pairs
      /\ In (EvLog ERROR "Cannot parse CTF_DOCKER_ENV variable, %s"
               [LExn (ValueError "not enough values to unpack")])
            (trace (__init__ image name0 ri od so vols ep kw w).2)).
Proof.
  destruct (init_volumes_stage image name0 ri od so vols ep kw w) as (w1 & -> & Hos & Hen & _).
  destruct (init_env_stage w1) as (w2 & -> & _ & _ & Hgood & Hbad).
  cbn [fst snd]. rewrite Hos, Hen in *. split; [done|]. split.
  - intros pairs Hne Hwf Hs. by destruct (Hgood pairs Hne Hwf Hs).
  - intros pairs bad rest Hwf Hb1 Hb2 Hs.
    destruct (Hbad pairs bad rest Hwf Hb1 Hb2 Hs) as [He Ht].
    split; [done|]. rewrite Ht. by left.
Qed.

Lemma init_overrides_never_raise_witness :
  let r := __init__ "img" None false "output" true None None ∅
             (fresh_world {["CTF_DOCKER_ENV" := "a=1,b=2"]}) in
  r.1 = Ok tt /\ environ (self r.2) !! "a" = Some "1" /\ environ (self r.2) !! "b" = Some "2".
Proof.
  destruct (init_overrides_never_raise "img" None false "output" true None None ∅
              (fresh_world {["CTF_DOCKER_ENV" := "a=1,b=2"]})) as (H1 & H2 & _).
  split; [exact H1|].
  cbv zeta. rewrite (H2 [("a", "1"); ("b", "2")]).
  - split; reflexivity.
  - discriminate.
  - repeat constructor.
  - reflexivity.
Defined.

(** ** Removal with retries *)

Lemma count_ev_app kind a b : count_ev kind (a ++ b) = (count_ev kind a + count_ev kind b)%nat.
Proof. induction a as [|e a IH]; simpl; [done|]. destruct (kind e); simpl; by rewrite IH. Qed.

(** Unfolding of the monad's plumbing down to matches on replies. *)
Ltac run_m :=
  unfold inspect, exec_exit_code, modify_self;
  unfold request_, request;
  unfold bind, try_except, get_self, set_self, get_trace, emit, raise, ret,
    get_fs, set_fs, get_os_environ, with_trace, with_self, with_fs;
  simpl.

Section Removal.
Context (d : Engine).

Lemma remove_container_succeeds (fails : nat) : forall (errs : nat -> exn) c fuel number w,
  container (self w) = Some c ->
  (fails < fuel)%nat ->
  (number + Z.of_nat fails <= 4)%Z ->
  (forall j, (j < fails)%nat ->
     remove_container_reply d (count_ev is_remove (trace w) + j) c = Some (errs j)) ->
  remove_container_reply d (count_ev is_remove (trace w) + fails) c = None ->
  exists new,
    _remove_container d fuel number w = (Ok tt, with_trace (new ++ trace w) w)
    /\ count_ev is_remove new = S fails
    /\ count_ev is_sleep new = fails
    /\ Forall (fun e => removal_event c e = true) new.
Proof.
  induction fails as [|fails IH]; intros errs c fuel number w Hc Hfuel Hnum Herr Hok.
  - destruct fuel as [|fuel]; [lia|].
    cbn [_remove_container]. unfold bind at 1. cbn [get_self]. rewrite Hc.
    run_m. rewrite Nat.add_0_r in Hok. rewrite Hok.
    eexists [_; _; _]. split; [reflexivity|].
    split; [done|]. split; [done|]. repeat constructor; simpl; apply String.eqb_refl.
  - destruct fuel as [|fuel]; [lia|].
    cbn [_remove_container]. unfold bind at 1. cbn [get_self]. rewrite Hc.
    run_m. rewrite <- (Nat.add_0_r (count_ev is_remove (trace w))), (Herr O) by lia.
    replace (number >? 3)%Z with false by lia. simpl.
    match goal with |- context [_remove_container d fuel (number + 1)%Z ?w1] =>
      destruct (IH (fun j => errs (S j)) c fuel (number + 1)%Z w1) as (new & Hrun & Hr & Hs & Hall)
    end.
    + done.
    + lia.
    + lia.
    + intros j Hj. simpl. rewrite <- Herr by lia. f_equal. lia.
    + simpl. rewrite <- Hok. f_equal. lia.
    + rewrite Hrun. eexists (new ++ [_; _; _; _]). unfold with_trace. simpl.
      rewrite <- app_assoc. split; [reflexivity|].
      rewrite !count_ev_app, Hr, Hs. simpl. split; [lia|]. split; [lia|].
      apply Forall_app. split; [done|]. repeat constructor; simpl; apply String.eqb_refl.
Qed.

Lemma remove_container_gives_up (left : nat) : forall (errs : nat -> exn) c fuel w,
  container (self w) = Some c ->
  (left < fuel)%nat ->
  (left <= 3)%nat ->
  (forall j, (j <= left)%nat ->
     remove_container_reply d (count_ev is_remove (trace w) + j) c = Some (errs j)) ->
  exists new,
    _remove_container d fuel (4 - Z.of_nat left) w
      = (Raise (errs left), with_trace (new ++ trace w) w)
    /\ count_ev is_remove new = S left
    /\ count_ev is_sleep new = left
    /\ Forall (fun e => removal_event c e = true) new.
Proof.
  induction left as [|left IH]; intros errs c fuel w Hc Hfuel Hleft Herr.
  - destruct fuel as [|fuel]; [lia|].
    cbn [_remove_container]. unfold bind at 1. cbn [get_self]. rewrite Hc.
    run_m. rewrite <- (Nat.add_0_r (count_ev is_remove (trace w))), (Herr O) by lia.
    simpl. eexists [_; _; _]. split; [reflexivity|].
    split; [done|]. split; [done|]. repeat constructor; simpl; apply String.eqb_refl.
  - destruct fuel as [|fuel]; [lia|].
    remember (4 - Z.of_nat (S left))%Z as number eqn:Hnumber.
    cbn [_remove_container]. unfold bind at 1. cbn [get_self]. rewrite Hc.
    run_m. rewrite <- (Nat.add_0_r (count_ev is_remove (trace w))), (Herr O) by lia.
    replace (number >? 3)%Z with false by lia. simpl.
    replace (number + 1)%Z with (4 - Z.of_nat left)%Z by lia.
    match goal with |- context [_remove_container d fuel _ ?w1] =>
      destruct (IH (fun j => errs (S j)) c fuel w1) as (new & Hrun & Hr & Hs & Hall)
    end.
    + done.
    + lia.
    + lia.
    + intros j Hj. simpl. rewrite <- Herr by lia. f_equal. lia.
    + rewrite Hrun. eexists (new ++ [_; _; _; _]). unfold with_trace. simpl.
      rewrite <- app_assoc. split; [reflexivity|].
      rewrite !count_ev_app, Hr, Hs. simpl. split; [lia|]. split; [lia|].
      apply Forall_app. split; [done|]. repeat constructor; simpl; apply String.eqb_refl.
Qed.

End Removal.

(** C4. [_remove_container], started with [number = 1] as [stop] does: when
    the removal succeeds on attempt [k] (1 to 4, the [k - 1] earlier ones
    failing), it returns normally after exactly [k] removal requests and
    [k - 1] waits of 20 seconds; when four attempts in a row fail, the error
    of the fourth attempt is raised, after exactly 4 requests and 3 waits. *)
Theorem remove_container_retry (d : Engine) c w (fuel k : nat) (errs : nat -> exn) :
  container (self w) = Some c ->
  (4 <= fuel)%nat ->
  (1 <= k <= 4)%nat ->
  (forall j, (j < k - 1)%nat ->
     remove_container_reply d (count_ev is_remove (trace w) + j) c = Some (errs j)) ->
  (remove_container_reply d (count_ev is_remove (trace w) + (k - 1)) c = None ->
   exists new,
     _remove_container d fuel 1 w = (Ok tt, with_trace (new ++ trace w) w)
     /\ count_ev is_remove new = k
     /\ count_ev is_sleep new = (k - 1)%nat
     /\ Forall (fun e => removal_event c e = true) new)
  /\ (k = 4%nat ->
      remove_container_reply d (count_ev is_remove (trace w) + 3) c = Some (errs 3%nat) ->
      exists new,
        _remove_container d fuel 1 w = (Raise (errs 3%nat), with_trace (new ++ trace w) w)
        /\ count_ev is_remove new = 4%nat
        /\ count_ev is_sleep new = 3%nat
        /\ Forall (fun e => removal_event c e = true) new).
Proof.
  intros Hc Hfuel Hk Herr. split.
  - intros Hok.
    destruct (remove_container_succeeds d (k - 1) errs c fuel 1 w) as (new & H1 & H2 & H3 & H4);
      [done | lia | lia | done | done |].
    exists new. rewrite H1, H2, H3. repeat split; [lia | done].
  - intros -> Hlast.
    destruct (remove_container_gives_up d 3 errs c fuel w) as (new & H1 & H2 & H3 & H4);
      [done | lia | lia | |].
    + intros j Hj. destruct (decide (j = 3%nat)) as [->|]; [done|]. apply Herr. lia.
    + change (4 - Z.of_nat 3)%Z with 1%Z in H1.
      exists new. by rewrite H1, H2, H3.
Qed.

Lemma remove_container_retry_witness :
  let d := example_engine 2 (fun _ => Some 0%Z) in
  let w := started_world None false {| Id := "c0ffee0" |} in
  exists new,
    _remove_container d 4 1 w = (Ok tt, with_trace (new ++ trace w) w)
    /\ count_ev is_remove new = 3%nat /\ count_ev is_sleep new = 2%nat.
Proof.
  intros d w.
  destruct (remove_container_retry d {| Id := "c0ffee0" |} w 4 3
              (fun j => EngineError ("device busy " +:+ pretty j))) as [Hok _].
  - reflexivity.
  - lia.
  - lia.
  - intros j Hj. assert (j = 0 \/ j = 1)%nat as [-> | ->] by lia; reflexivity.
  - destruct Hok as (new & H1 & H2 & H3 & _); [reflexivity|].
    exists new. split; [exact H1|]. split; [exact H2 | exact H3].
Defined.

(** ** Stopping *)

Section Stop.
Context (d : Engine).

(** Saving the output touches neither the container reference nor the
    running flag, and sends no inspection, kill or removal request. *)
Lemma stop_save_output_frame w r w1 :
  stop_save_output d w = (r, w1) ->
  container (self w1) = container (self w)
  /\ running (self w1) = running (self w)
  /\ count_ev is_remove (trace w1) = count_ev is_remove (trace w)
  /\ count_ev is_inspect (trace w1) = count_ev is_inspect (trace w)
  /\ count_ev is_kill (trace w1) = count_ev is_kill (trace w).
Proof.
  unfold stop_save_output. unfold bind at 1. cbn [get_self].
  destruct (running (self w) && save_output (self w))%bool; [|by intros [= <- <-]].
  destruct (container (self w)) as [c|] eqn:Hc; [|by intros [= <- <-]; rewrite Hc].
  unfold makedirs, write_printed. run_m.
  destruct (bool_decide (is_Some (fs w !! output_dir (self w)))); simpl.
  - destruct (open_reply _ _ _); simpl; [by intros [= <- <-]|].
    destruct (logs_reply _ _ _); simpl; by intros [= <- <-].
  - destruct (makedirs_reply _ _ _); simpl; [by intros [= <- <-]|].
    destruct (open_reply _ _ _); simpl; [by intros [= <- <-]|].
    destruct (logs_reply _ _ _); simpl; by intros [= <- <-].
Qed.

Lemma stop_remove_gives_up w c fuel (errs : nat -> exn) info :
  container (self w) = Some c ->
  (4 <= fuel)%nat ->
  inspect_container_reply d (count_ev is_inspect (trace w)) (Id c) = inr info ->
  (State_Running info = true -> kill_reply d (count_ev is_kill (trace w)) c = None) ->
  (forall j, (j <= 3)%nat ->
     remove_container_reply d (count_ev is_remove (trace w) + j) c = Some (errs j)) ->
  exists w',
    stop_remove d fuel w = (Raise (errs 3%nat), w')
    /\ running (self w') = false
    /\ container (self w') = Some c
    /\ count_ev is_remove (trace w') = (count_ev is_remove (trace w) + 4)%nat.
Proof.
  intros Hc Hfuel Hinsp Hkill Herr.
  unfold stop_remove. unfold bind at 1. cbn [get_self]. rewrite Hc.
  run_m. rewrite Hc. run_m. rewrite Hinsp. simpl.
  destruct (State_Running info) eqn:Hrun; simpl; [rewrite Hkill by done; simpl|].
  - match goal with |- context [_remove_container d fuel 1%Z ?w2] =>
      destruct (remove_container_gives_up d 3 errs c fuel w2) as (new & H1 & H2 & _);
        [simpl; by rewrite Hc | lia | lia | done |]
    end.
    change (4 - Z.of_nat 3)%Z with 1%Z in H1. rewrite H1.
    eexists. split; [reflexivity|]. simpl. rewrite Hc.
    split; [done|]. split; [done|]. rewrite count_ev_app, H2. simpl. lia.
  - match goal with |- context [_remove_container d fuel 1%Z ?w2] =>
      destruct (remove_container_gives_up d 3 errs c fuel w2) as (new & H1 & H2 & _);
        [simpl; by rewrite Hc | lia | lia | done |]
    end.
    change (4 - Z.of_nat 3)%Z with 1%Z in H1. rewrite H1.
    eexists. split; [reflexivity|]. simpl. rewrite Hc.
    split; [done|]. split; [done|]. rewrite count_ev_app, H2. simpl. lia.
Qed.

(** The removal never touches the filesystem nor the name of the handle. *)
Lemma remove_container_fs fuel : forall number w r w',
  _remove_container d fuel number w = (r, w') ->
  fs w' = fs w /\ name (self w') = name (self w).
Proof.
  induction fuel as [|fuel IH]; intros number w r w'.
  - by intros [= <- <-].
  - cbn [_remove_container]. unfold bind at 1. cbn [get_self].
    destruct (container (self w)) as [c|]; [|by intros [= <- <-]].
    run_m. destruct (remove_container_reply _ _ _); simpl; [|by intros [= <- <-]].
    destruct (number >? 3)%Z; simpl; [by intros [= <- <-]|].
    intros H. by destruct (IH _ _ _ _ H).
Qed.

Lemma stop_remove_fs fuel w r w' :
  stop_remove d fuel w = (r, w') -> fs w' = fs w /\ name (self w') = name (self w).
Proof.
  unfold stop_remove. unfold bind at 1. cbn [get_self].
  destruct (container (self w)) as [c|] eqn:Hc; [|by intros [= <- <-]].
  run_m. rewrite Hc. run_m.
  destruct (inspect_container_reply _ _ _) as [e|info]; simpl; [by intros [= <- <-]|].
  destruct (State_Running info); simpl.
  - destruct (kill_reply _ _ _); simpl; [by intros [= <- <-]|].
    destruct (_remove_container _ _ _ _) as [[| |] w2] eqn:E;
      destruct (remove_container_fs _ _ _ _ _ E); by intros [= <- <-].
  - destruct (_remove_container _ _ _ _) as [[| |] w2] eqn:E;
      destruct (remove_container_fs _ _ _ _ _ E); by intros [= <- <-].
Qed.

(** Neither block of [stop] changes the [remove_image] attribute or asks
    the engine to remove an image. *)
Lemma remove_container_flag fuel : forall number w r w',
  _remove_container d fuel number w = (r, w') ->
  remove_image (self w') = remove_image (self w)
  /\ count_ev is_remove_image (trace w') = count_ev is_remove_image (trace w).
Proof.
  induction fuel as [|fuel IH]; intros number w r w'.
  - by intros [= <- <-].
  - cbn [_remove_container]. unfold bind at 1. cbn [get_self].
    destruct (container (self w)) as [c|]; [|by intros [= <- <-]].
    run_m. destruct (remove_container_reply _ _ _); simpl; [|by intros [= <- <-]].
    destruct (number >? 3)%Z; simpl; [by intros [= <- <-]|].
    intros H. by destruct (IH _ _ _ _ H).
Qed.

Lemma stop_remove_flag fuel w r w' :
  stop_remove d fuel w = (r, w') ->
  remove_image (self w') = remove_image (self w)
  /\ count_ev is_remove_image (trace w') = count_ev is_remove_image (trace w).
Proof.
  unfold stop_remove. unfold bind at 1. cbn [get_self].
  destruct (container (self w)) as [c|] eqn:Hc; [|by intros [= <- <-]].
  run_m. rewrite Hc. run_m.
  destruct (inspect_container_reply _ _ _) as [e|info]; simpl; [by intros [= <- <-]|].
  destruct (State_Running info); simpl.
  - destruct (kill_reply _ _ _); simpl; [by intros [= <- <-]|].
    destruct (_remove_container _ _ _ _) as [[| |] w2] eqn:E;
      destruct (remove_container_flag _ _ _ _ _ E); by intros [= <- <-].
  - destruct (_remove_container _ _ _ _) as [[| |] w2] eqn:E;
      destruct (remove_container_flag _ _ _ _ _ E); by intros [= <- <-].
Qed.

Lemma stop_save_output_flag w r w1 :
  stop_save_output d w = (r, w1) ->
  remove_image (self w1) = remove_image (self w)
  /\ count_ev is_remove_image (trace w1) = count_ev is_remove_image (trace w).
Proof.
  unfold stop_save_output. unfold bind at 1. cbn [get_self].
  destruct (running (self w) && save_output (self w))%bool; [|by intros [= <- <-]].
  destruct (container (self w)) as [c|] eqn:Hc; [|by intros [= <- <-]].
  unfold makedirs, write_printed. run_m.
  destruct (bool_decide (is_Some (fs w !! output_dir (self w)))); simpl.
  - destruct (open_reply _ _ _); simpl; [by intros [= <- <-]|].
    destruct (logs_reply _ _ _); simpl; by intros [= <- <-].
  - destruct (makedirs_reply _ _ _); simpl; [by intros [= <- <-]|].
    destruct (open_reply _ _ _); simpl; [by intros [= <- <-]|].
    destruct (logs_reply _ _ _); simpl; by intros [= <- <-].
Qed.

Lemma stop_flag fuel w r w' :
  stop d fuel w = (r, w') ->
  remove_image (self w') = remove_image (self w)
  /\ count_ev is_remove_image (trace w') = count_ev is_remove_image (trace w).
Proof.
  unfold stop, bind.
  destruct (stop_save_output d w) as [r1 w1] eqn:E1.
  destruct (stop_save_output_flag _ _ _ E1) as [H1 H2].
  destruct r1 as [[]|e|]; try (intros [= <- <-]; done).
  intros E2. destruct (stop_remove_flag _ _ _ _ E2) as [H3 H4]. split; congruence.
Qed.

Lemma stop_save_output_writes w c text :
  running (self w) = true -> save_output (self w) = true ->
  container (self w) = Some c ->
  let nm := match name (self w) with
            | Some n => if String.eqb n "" then Id c else n +:+ "_" +:+ Id c
            | None => Id c
            end in
  let path := output_dir (self w) +:+ "/"
              +:+ str_replace " " "_" (str_filter re_word_or_space nm) +:+ ".txt" in
  (fs w !! output_dir (self w) = None ->
   makedirs_reply d (count_ev is_makedirs (trace w)) (output_dir (self w)) = None) ->
  open_reply d (count_ev is_open (trace w)) path = None ->
  logs_reply d (count_ev is_logs (trace w)) (Id c) = inr text ->
  exists w1,
    stop_save_output d w = (Ok tt, w1)
    /\ fs w1 !! path = Some (File (bytes_repr text +:+ String "010" ""))
    /\ name (self w1) = Some nm.
Proof.
  intros Hrun Hsave Hc nm path Hmk Hopen Hlogs.
  unfold stop_save_output. unfold bind at 1. cbn [get_self].
  rewrite Hrun, Hsave, Hc. cbn [andb].
  unfold makedirs, write_printed. run_m.
  replace (match name (self w) with
           | Some n => if negb (n =? "") then n +:+ "_" +:+ Id c else Id c
           | None => Id c
           end) with nm
    by (subst nm; destruct (name (self w)) as [n|]; [by destruct (n =? "")|done]).
  fold path.
  destruct (fs w !! output_dir (self w)) as [node|] eqn:Hdir.
  - rewrite bool_decide_eq_true_2 by by eexists. simpl.
    rewrite Hopen. simpl. rewrite Hlogs. simpl.
    eexists. split; [reflexivity|]. simpl. split; [|done]. apply lookup_insert_eq.
  - rewrite bool_decide_eq_false_2 by (intros [? ?]; congruence). simpl.
    rewrite Hmk by done. simpl.
    rewrite Hopen. simpl. rewrite Hlogs. simpl.
    eexists. split; [reflexivity|]. simpl. split; [|done]. apply lookup_insert_eq.
Qed.

End Stop.

(** C10. When the four removal attempts of a [stop] all fail, [stop] raises
    the error of the fourth attempt and leaves the handle with [running]
    false and the container reference still set: the reference is cleared
    only on the line after a successful removal. *)
Theorem stop_failed_removal_keeps_container (d : Engine) w c (fuel : nat) (errs : nat -> exn) info :
  container (self w) = Some c ->
  (4 <= fuel)%nat ->
  (stop_save_output d w).1 = Ok tt ->
  inspect_container_reply d (count_ev is_inspect (trace w)) (Id c) = inr info ->
  (State_Running info = true -> kill_reply d (count_ev is_kill (trace w)) c = None) ->
  (forall j, (j <= 3)%nat ->
     remove_container_reply d (count_ev is_remove (trace w) + j) c = Some (errs j)) ->
  (stop d fuel w).1 = Raise (errs 3%nat)
  /\ running (self (stop d fuel w).2) = false
  /\ container (self (stop d fuel w).2) = Some c
  /\ count_ev is_remove (trace (stop d fuel w).2) = (count_ev is_remove (trace w) + 4)%nat.
Proof.
  intros Hc Hfuel Hsave Hinsp Hkill Herr.
  unfold stop, bind.
  destruct (stop_save_output d w) as [r w1] eqn:E. simpl in Hsave. subst r.
  destruct (stop_save_output_frame d w _ _ E) as (Fc & _ & Fr & Fi & Fk).
  destruct (stop_remove_gives_up d w1 c fuel errs info) as (w' & -> & H1 & H2 & H3).
  - congruence.
  - done.
  - by rewrite Fi.
  - by rewrite Fk.
  - by rewrite Fr.
  - simpl. by rewrite H3, Fr.
Qed.

Lemma stop_failed_removal_keeps_container_witness :
  let d := example_engine 4 (fun _ => Some 0%Z) in
  let w := started_world (Some "web") false {| Id := "c0ffee0" |} in
  (stop d 4 w).1 = Raise (EngineError "device busy 3")
  /\ running (self (stop d 4 w).2) = false
  /\ container (self (stop d 4 w).2) = Some {| Id := "c0ffee0" |}.
Proof.
  intros d w.
  destruct (stop_failed_removal_keeps_container d w {| Id := "c0ffee0" |} 4
              (fun j => EngineError ("device busy " +:+ pretty j))
              {| State_Running := true; NetworkSettings_IPAddress := "172.17.0.2" |})
    as (H1 & H2 & H3 & _).
  - reflexivity.
  - lia.
  - reflexivity.
  - reflexivity.
  - reflexivity.
  - intros j Hj.
    assert (j = 0 \/ j = 1 \/ j = 2 \/ j = 3)%nat as [-> | [-> | [-> | ->]]] by lia; reflexivity.
  - split; [exact H1|]. split; [exact H2 | exact H3].
Defined.




(** ** Executing a command *)

Section Execute.
Context (d : Engine).

Lemma poll_exit_code_resolved fuel inst cmd output count rc w :
  poll_exit_code d fuel inst cmd output count (Some rc) w = (Ok rc, w).
Proof. by destruct fuel. Qed.

Lemma poll_exit_code_resolves (polls : nat) : forall fuel inst cmd output count rc w,
  (polls < fuel)%nat ->
  (count + Z.of_nat polls + 1 <= 15)%Z ->
  (forall j, (j < polls)%nat ->
     exec_inspect_reply d (count_ev is_exec_inspect (trace w) + j) inst = inr None) ->
  exec_inspect_reply d (count_ev is_exec_inspect (trace w) + polls) inst = inr (Some rc) ->
  exists new,
    poll_exit_code d fuel inst cmd output count None w = (Ok rc, with_trace (new ++ trace w) w)
    /\ count_ev is_exec_inspect new = S polls
    /\ count_ev is_sleep new = S polls.
Proof.
  induction polls as [|polls IH]; intros fuel inst cmd output count rc w Hfuel Hcount Hnone Hrc.
  - destruct fuel as [|fuel]; [lia|].
    cbn [poll_exit_code]. run_m.
    rewrite <- (Nat.add_0_r (count_ev is_exec_inspect (trace w))), Hrc. simpl.
    replace (count + 1 >? 15)%Z with false by lia.
    rewrite poll_exit_code_resolved.
    eexists [_; _]. split; [reflexivity|]. done.
  - destruct fuel as [|fuel]; [lia|].
    cbn [poll_exit_code]. run_m.
    rewrite <- (Nat.add_0_r (count_ev is_exec_inspect (trace w))), (Hnone O) by lia. simpl.
    replace (count + 1 >? 15)%Z with false by lia.
    match goal with |- context [poll_exit_code d fuel inst cmd output _ None ?w1] =>
      destruct (IH fuel inst cmd output (count + 1)%Z rc w1) as (new & Hrun & Hi & Hs)
    end.
    + lia.
    + lia.
    + intros j Hj. simpl. rewrite <- (Hnone (S j)) by lia. f_equal. lia.
    + simpl. rewrite <- Hrc. f_equal. lia.
    + rewrite Hrun. eexists (new ++ [_; _]). unfold with_trace. simpl.
      rewrite <- app_assoc. split; [reflexivity|].
      rewrite !count_ev_app, Hi, Hs. simpl. lia.
Qed.

Lemma poll_exit_code_times_out (left : nat) : forall fuel inst cmd output w,
  (left < fuel)%nat ->
  (left <= 15)%nat ->
  (forall j, (j < left)%nat ->
     exec_inspect_reply d (count_ev is_exec_inspect (trace w) + j) inst = inr None) ->
  (exists last,
     exec_inspect_reply d (count_ev is_exec_inspect (trace w) + left) inst = inr last) ->
  exists new,
    poll_exit_code d fuel inst cmd output (15 - Z.of_nat left) None w
      = (Raise (ExecException ("Command " +:+ cmd +:+ " timed out, output: " +:+ output) None),
         with_trace (new ++ trace w) w)
    /\ count_ev is_exec_inspect new = S left
    /\ count_ev is_sleep new = S left.
Proof.
  induction left as [|left IH]; intros fuel inst cmd output w Hfuel Hleft Hnone [last Hlast].
  - destruct fuel as [|fuel]; [lia|].
    cbn [poll_exit_code]. run_m.
    rewrite <- (Nat.add_0_r (count_ev is_exec_inspect (trace w))), Hlast. simpl.
    eexists [_; _]. split; [reflexivity|]. done.
  - destruct fuel as [|fuel]; [lia|].
    remember (15 - Z.of_nat (S left))%Z as count eqn:Hcount.
    cbn [poll_exit_code]. run_m.
    rewrite <- (Nat.add_0_r (count_ev is_exec_inspect (trace w))), (Hnone O) by lia. simpl.
    replace (count + 1 >? 15)%Z with false by lia.
    replace (count + 1)%Z with (15 - Z.of_nat left)%Z by lia.
    match goal with |- context [poll_exit_code d fuel inst cmd output _ None ?w1] =>
      destruct (IH fuel inst cmd output w1) as (new & Hrun & Hi & Hs)
    end.
    + lia.
    + lia.
    + intros j Hj. simpl. rewrite <- (Hnone (S j)) by lia. f_equal. lia.
    + exists last. simpl. rewrite <- Hlast. f_equal. lia.
    + rewrite Hrun. eexists (new ++ [_; _]). unfold with_trace. simpl.
      rewrite <- app_assoc. split; [reflexivity|].
      rewrite !count_ev_app, Hi, Hs. simpl. lia.
Qed.

End Execute.

(** C7, as the code has it.  A non-detached [execute] whose exit code
    resolves at the first inspection or at one of the first 15 polls of the
    loop: a non-zero code raises an [ExecException] whose message ends with
    the code and whose [output] is the output of the exec start; the code 0
    returns that output. *)
Theorem execute_resolved_exit_code (d : Engine) w (fuel polls : nat) cmd inst output rc :
  (16 <= fuel)%nat ->
  (polls <= 15)%nat ->
  exec_create_reply d (count_ev is_exec_create (trace w)) (container (self w)) cmd = inr inst ->
  exec_start_reply d (count_ev is_exec_start (trace w)) inst false = inr output ->
  (forall j, (j < polls)%nat ->
     exec_inspect_reply d (count_ev is_exec_inspect (trace w) + j) inst = inr None) ->
  exec_inspect_reply d (count_ev is_exec_inspect (trace w) + polls) inst = inr (Some rc) ->
  (rc <> 0%Z ->
   (execute d fuel cmd false w).1
   = Raise (ExecException ("Command " +:+ cmd +:+ " failed to execute, return code: "
                           +:+ pretty rc) (Some output)))
  /\ (rc = 0%Z -> (execute d fuel cmd false w).1 = Ok (Some output)).
Proof.
  intros Hfuel Hpolls Hcreate Hstart Hnone Hrc.
  unfold execute. run_m. rewrite Hcreate. simpl. rewrite Hstart. simpl.
  destruct polls as [|polls].
  - rewrite <- (Nat.add_0_r (count_ev is_exec_inspect (trace w))), Hrc. simpl.
    rewrite poll_exit_code_resolved.
    split; intros H; [replace (rc =? 0)%Z with false by lia
                     | replace (rc =? 0)%Z with true by lia]; done.
  - rewrite <- (Nat.add_0_r (count_ev is_exec_inspect (trace w))), (Hnone O) by lia. simpl.
    match goal with |- context [poll_exit_code d fuel inst cmd output 0 None ?w1] =>
      destruct (poll_exit_code_resolves d polls fuel inst cmd output 0 rc w1)
        as (new & Hp & _)
    end.
    + lia.
    + lia.
    + intros j Hj. simpl. rewrite <- (Hnone (S j)) by lia. f_equal. lia.
    + simpl. rewrite <- Hrc. f_equal. lia.
    + rewrite Hp.
      split; intros H; [replace (rc =? 0)%Z with false by lia
                       | replace (rc =? 0)%Z with true by lia]; done.
Qed.

Lemma execute_resolved_exit_code_witness :
  let d := example_engine 0 (fun n => if (n <? 3)%nat then None else Some 1%Z) in
  let w := started_world None false {| Id := "c0ffee0" |} in
  (execute d 16 "ls /nowhere" false w).1
  = Raise (ExecException "Command ls /nowhere failed to execute, return code: 1" (Some "hello")).
Proof.
  intros d w.
  destruct (execute_resolved_exit_code d w 16 3 "ls /nowhere" "exec0" "hello" 1) as [H _].
  - lia.
  - lia.
  - reflexivity.
  - reflexivity.
  - intros j Hj. assert (j = 0 \/ j = 1 \/ j = 2)%nat as [-> | [-> | ->]] by lia; reflexivity.
  - reflexivity.
  - apply H. discriminate.
Defined.

(** C7, as the claim states it, fails for an exit code that resolves at the
    16th poll of the loop: the test [count > 15] follows the poll and does
    not look at [retcode].  With the code 0 reported there, [execute] does
    not return the output; with the code 2, it does not raise the exception
    that carries the code and the output.  Both raise the timeout, whose
    [output] is [None]. *)
Lemma execute_code_at_last_poll_is_lost :
  let late rc := example_engine 0 (fun n => if (n <? 16)%nat then None else Some rc) in
  let w := started_world None false {| Id := "c0ffee0" |} in
  (exec_inspect_reply (late 0%Z) 16 "exec0" = inr (Some 0%Z)
   /\ (execute (late 0%Z) 16 "make" false w).1
      = Raise (ExecException "Command make timed out, output: hello" None)
   /\ (execute (late 0%Z) 16 "make" false w).1 <> Ok (Some "hello")
   /\ (execute (late 0%Z) 99 "make" false w).1 <> Ok (Some "hello"))
  /\ (exec_inspect_reply (late 2%Z) 16 "exec0" = inr (Some 2%Z)
      /\ (execute (late 2%Z) 16 "make" false w).1
         = Raise (ExecException "Command make timed out, output: hello" None)
      /\ (execute (late 2%Z) 16 "make" false w).1
         <> Raise (ExecException "Command make failed to execute, return code: 2"
                     (Some "hello"))
      /\ (execute (late 2%Z) 99 "make" false w).1
         <> Raise (ExecException "Command make failed to execute, return code: 2"
                     (Some "hello"))).
Proof.
  intros late w. split.
  - split; [reflexivity|]. split; [vm_compute; reflexivity|].
    split; vm_compute; discriminate.
  - split; [reflexivity|]. split; [vm_compute; reflexivity|].
    split; vm_compute; discriminate.
Qed.

(** C3. A non-detached [execute] whose exit code stays unknown: after the
    first inspection the loop polls 16 times, sleeping one second after each
    poll, and then raises the timeout [ExecException]; the captured output is
    in the text of the message only, the [output] attribute is [None]. *)
Theorem execute_timeout_polls_and_output (d : Engine) w (fuel : nat) cmd inst output :
  (16 <= fuel)%nat ->
  exec_create_reply d (count_ev is_exec_create (trace w)) (container (self w)) cmd = inr inst ->
  exec_start_reply d (count_ev is_exec_start (trace w)) inst false = inr output ->
  (forall j, (j <= 16)%nat ->
     exec_inspect_reply d (count_ev is_exec_inspect (trace w) + j) inst = inr None) ->
  (execute d fuel cmd false w).1
  = Raise (ExecException ("Command " +:+ cmd +:+ " timed out, output: " +:+ output) None)
  /\ count_ev is_exec_inspect (trace (execute d fuel cmd false w).2)
     = (count_ev is_exec_inspect (trace w) + 17)%nat
  /\ count_ev is_sleep (trace (execute d fuel cmd false w).2)
     = (count_ev is_sleep (trace w) + 16)%nat.
Proof.
  intros Hfuel Hcreate Hstart Hnone.
  unfold execute. run_m. rewrite Hcreate. simpl. rewrite Hstart. simpl.
  rewrite <- (Nat.add_0_r (count_ev is_exec_inspect (trace w))), (Hnone O) by lia. simpl.
  match goal with |- context [poll_exit_code d fuel inst cmd output 0 None ?w1] =>
    destruct (poll_exit_code_times_out d 15 fuel inst cmd output w1) as (new & Hp & Hi & Hs)
  end.
  - lia.
  - lia.
  - intros j Hj. simpl. rewrite <- (Hnone (S j)) by lia. f_equal. lia.
  - exists None. simpl. rewrite <- (Hnone 16%nat) by lia. f_equal. lia.
  - change (15 - Z.of_nat 15)%Z with 0%Z in Hp. rewrite Hp. simpl.
    split; [done|]. rewrite !count_ev_app, Hi, Hs. simpl. lia.
Qed.

Lemma execute_timeout_polls_and_output_witness :
  let d := example_engine 0 (fun _ => None) in
  let w := started_world None false {| Id := "c0ffee0" |} in
  (execute d 16 "sleep 60" false w).1
  = Raise (ExecException "Command sleep 60 timed out, output: hello" None)
  /\ count_ev is_exec_inspect (trace (execute d 16 "sleep 60" false w).2) = 17%nat
  /\ count_ev is_sleep (trace (execute d 16 "sleep 60" false w).2) = 16%nat.
Proof.
  intros d w.
  apply (execute_timeout_polls_and_output d w 16 "sleep 60" "exec0" "hello").
  - lia.
  - reflexivity.
  - reflexivity.
  - intros j Hj. reflexivity.
Defined.

(** ** Starting *)

Section Start.
Context (d : Engine) (lib : PyLib).

Lemma create_container_running kw w :
  running (self w) = true ->
  _create_container d lib kw w
  = (Ok tt, with_trace (EvLog DEBUG "Container is running" [] :: trace w) w).
Proof.
  intros H. unfold _create_container. unfold bind at 1. cbn [get_self]. by rewrite H.
Qed.

Lemma start_running_effect kw w r w' :
  running (self w) = true ->
  start d lib kw w = (r, w') ->
  container (self w') = container (self w)
  /\ running (self w') = true
  /\ count_ev is_create (trace w') = count_ev is_create (trace w)
  /\ (forall c, container (self w) = Some c ->
      count_ev is_start (trace w') = S (count_ev is_start (trace w))
      /\ In (EvStart c) (trace w')
      /\ (start_reply d (count_ev is_start (trace w)) c = None ->
          count_ev is_inspect (trace w') = S (count_ev is_inspect (trace w))
          /\ In (EvInspectContainer (Id c)) (trace w')
          /\ forall info,
               inspect_container_reply d (count_ev is_inspect (trace w)) (Id c) = inr info ->
               r = Ok tt
               /\ ip_address (self w') = Some (NetworkSettings_IPAddress info))).
Proof.
  intros Hrun. unfold start. unfold bind at 1.
  rewrite create_container_running by done.
  unfold start_created. unfold bind at 1. cbn [get_self with_trace self].
  destruct (container (self w)) as [c|] eqn:Hc.
  - run_m.
    destruct (start_reply _ _ _) eqn:Hst; simpl.
    + intros [= <- <-]. simpl. rewrite ?Hc.
      split; [done|]. split; [done|]. split; [done|].
      intros c' [= <-]. split; [done|]. split; [simpl; auto|].
      intros Hst'. congruence.
    + run_m. rewrite ?Hc. run_m.
      destruct (inspect_container_reply _ _ _) eqn:Hi; simpl; intros [= <- <-]; simpl;
        rewrite ?Hc;
        (split; [done|]); (split; [done|]); (split; [done|]);
        intros c' [= <-]; (split; [done|]); (split; [simpl; auto|]);
        intros _; (split; [done|]); (split; [simpl; auto|]);
        intros info Hinfo; rewrite Hinfo in Hi; [discriminate|].
      injection Hi as <-. done.
  - intros [= <- <-]. simpl. rewrite Hc. by repeat split.
Qed.

End Start.

(** C5, as the code has it.  [start] on a handle whose [running] flag is set
    creates no container and leaves the container reference and the flag as
    they were; the guard sits in [_create_container], and [start] goes on to
    send the engine a start request for the existing container and, when the
    engine accepts it, an inspection of that container, whose address it
    stores in [ip_address]. *)
Theorem start_running_creates_nothing (d : Engine) (lib : PyLib) kw w :
  running (self w) = true ->
  container (self (start d lib kw w).2) = container (self w)
  /\ running (self (start d lib kw w).2) = true
  /\ count_ev is_create (trace (start d lib kw w).2) = count_ev is_create (trace w)
  /\ (forall c, container (self w) = Some c ->
      count_ev is_start (trace (start d lib kw w).2) = S (count_ev is_start (trace w))
      /\ In (EvStart c) (trace (start d lib kw w).2)
      /\ (start_reply d (count_ev is_start (trace w)) c = None ->
          count_ev is_inspect (trace (start d lib kw w).2)
          = S (count_ev is_inspect (trace w))
          /\ In (EvInspectContainer (Id c)) (trace (start d lib kw w).2)
          /\ forall info,
               inspect_container_reply d (count_ev is_inspect (trace w)) (Id c) = inr info ->
               (start d lib kw w).1 = Ok tt
               /\ ip_address (self (start d lib kw w).2)
                  = Some (NetworkSettings_IPAddress info))).
Proof.
  intros Hrun. destruct (start d lib kw w) as [r w'] eqn:E.
  exact (start_running_effect d lib kw w r w' Hrun E).
Qed.

Lemma start_running_creates_nothing_witness :
  let d := example_engine 0 (fun _ => Some 0%Z) in
  let w := world_after_start d in
  container (self (start d example_lib ∅ w).2) = Some {| Id := "c0ffee0" |}
  /\ count_ev is_create (trace (start d example_lib ∅ w).2) = 1%nat
  /\ count_ev is_start (trace (start d example_lib ∅ w).2) = 2%nat
  /\ count_ev is_inspect (trace (start d example_lib ∅ w).2) = 2%nat
  /\ ip_address (self (start d example_lib ∅ w).2) = Some "172.17.0.3".
Proof.
  intros d w.
  destruct (start_running_creates_nothing d example_lib ∅ w) as (H1 & _ & H3 & H4);
    [reflexivity|].
  destruct (H4 {| Id := "c0ffee0" |}) as (H5 & _ & H6); [reflexivity|].
  destruct H6 as (H7 & _ & H8); [reflexivity|].
  destruct (H8 {| State_Running := true; NetworkSettings_IPAddress := "172.17.0.3" |})
    as [_ H9]; [reflexivity|].
  split; [exact H1|]. split; [exact H3|]. split; [exact H5|]. split; [exact H7 | exact H9].
Defined.

(** C5, as the claim states it, fails: on a running handle [start] is not a
    no-op.  After [Container("img")] and a first [start()], a second
    [start()] sends the engine another start request and another inspection,
    and stores the address the engine reports then. *)
Lemma start_running_is_not_a_noop :
  let d := example_engine 0 (fun _ => Some 0%Z) in
  let w := world_after_start d in
  running (self w) = true
  /\ ip_address (self w) = Some "172.17.0.2"
  /\ (start d example_lib ∅ w).1 = Ok tt
  /\ (start d example_lib ∅ w).2 <> w
  /\ count_ev is_start (trace w) = 1%nat
  /\ count_ev is_start (trace (start d example_lib ∅ w).2) = 2%nat
  /\ ip_address (self (start d example_lib ∅ w).2) = Some "172.17.0.3".
Proof.
  intros d w. repeat split; try reflexivity.
  intros H. apply (f_equal (fun x => ip_address (self x))) in H. vm_compute in H. discriminate.
Qed.

(** ** Creating: the environment of the request *)

Section Create.
Context (d : Engine) (lib : PyLib).

Lemma move_host_args_other names : forall ha (kw : gmap string pyval) k,
  k ∉ names ->
  (foldl (move_host_arg lib) (ha, kw) names).2 !! k = kw !! k.
Proof.
  induction names as [|a names IH]; intros ha kw k Hk; [done|].
  apply not_elem_of_cons in Hk as [Hne Hk].
  cbn [foldl]. unfold move_host_arg at 2.
  destruct (kw !! a) as [v|].
  - rewrite IH by done. by apply lookup_delete_ne.
  - by apply IH.
Qed.

Lemma move_host_args_absent names : forall ha (kw : gmap string pyval) k,
  kw !! k = None ->
  (foldl (move_host_arg lib) (ha, kw) names).2 !! k = None.
Proof.
  induction names as [|a names IH]; intros ha kw k Hk; [done|].
  cbn [foldl]. unfold move_host_arg at 2.
  destruct (kw !! a) as [v|].
  - apply IH. destruct (decide (a = k)) as [->|Hne].
    + apply lookup_delete_eq.
    + by rewrite lookup_delete_ne.
  - by apply IH.
Qed.

Lemma create_container_request kw w (kenv : option (gmap string string))
    (jtext : option string) (jenv : gmap string string) :
  running (self w) = false ->
  kw !! "environment" = PDict <$> kenv ->
  kw !! "env_json" = PStr <$> jtext ->
  match jtext with Some s => json_loads lib s = inr jenv | None => jenv = ∅ end ->
  "environment" ∉ create_host_config_varnames lib ->
  (forall k, k ∈ create_keywords -> kw !! k = None) ->
  (forall args, exists hc, create_host_config_reply d args = inr hc) ->
  exists req r w',
    _create_container d lib kw w = (r, w')
    /\ trace w' = EvCreateContainer req
                  :: EvLogCreating (jenv ∪ (environ (self w) ∪ default ∅ kenv)) (image_id (self w))
                  :: EvLog DEBUG ("Creating container from image '" +:+ image_id (self w) +:+ "'...") []
                  :: trace w
    /\ cr_kwargs req !! "environment"
       = Some (PDict (jenv ∪ (environ (self w) ∪ default ∅ kenv)))
    /\ cr_kwargs req !! "env_json" = None.
Proof.
  intros Hrun Henv Hjson Hdec Hnames Hclash Hhc.
  set (merged := jenv ∪ (environ (self w) ∪ default ∅ kenv)).
  unfold _create_container. unfold bind at 1. cbn [get_self]. rewrite Hrun.
  (* the environment of the kwargs and of the instance *)
  unfold bind at 1. rewrite Henv.
  assert (match PDict <$> kenv with Some v => as_dict v | None => ret ∅ end w
          = (Ok (default ∅ kenv), w)) as -> by by destruct kenv.
  (* env_json *)
  unfold bind at 1. rewrite lookup_insert_ne, Hjson by done.
  assert (exists kw0,
    match PStr <$> jtext with
    | Some v =>
        env <- match v with
               | PStr s => match json_loads lib s with inl e => raise e | inr env => ret env end
               | _ => raise (TypeError ("the JSON object must be str, bytes or bytearray, not "
                                                 +:+ py_type_name v))
               end ;;
        kwargs_env0 <- match <["environment":=PDict (environ (self w) ∪ default ∅ kenv)]> kw
                             !! "environment" with
                       | Some v0 => as_dict v0
                       | None => ret ∅
                       end ;;
        ret (delete "env_json"
               (<["environment":=PDict (env ∪ kwargs_env0)]>
                  (<["environment":=PDict (environ (self w) ∪ default ∅ kenv)]> kw)))
    | None => ret (<["environment":=PDict (environ (self w) ∪ default ∅ kenv)]> kw)
    end w = (Ok kw0, w)
    /\ kw0 !! "environment" = Some (PDict merged)
    /\ kw0 !! "env_json" = None
    /\ (forall k, k ∈ create_keywords -> kw0 !! k = None)) as (kw0 & -> & Hk1 & Hk2 & Hk3).
  { destruct jtext as [s|]; cbn [fmap option_fmap option_map].
    - unfold bind at 1. rewrite Hdec. cbn [ret].
      unfold bind at 1. rewrite lookup_insert_eq. cbn [as_dict ret].
      eexists. split; [reflexivity|]. split; [|split].
      + rewrite lookup_delete_ne, lookup_insert_eq by done. done.
      + apply lookup_delete_eq.
      + intros k Hk. pose proof (Hclash k Hk) as Hnone.
        assert (k <> "environment" /\ k <> "env_json") as [H1 H2].
        { split; intros ->; revert Hk; unfold create_keywords;
            rewrite !elem_of_cons, elem_of_nil; intuition discriminate. }
        by rewrite lookup_delete_ne, !lookup_insert_ne by done.
    - cbn [ret]. eexists. split; [reflexivity|]. split; [|split].
      + rewrite lookup_insert_eq. subst merged. rewrite Hdec.
        by rewrite (left_id_L ∅ (∪)).
      + by rewrite lookup_insert_ne, Hjson by done.
      + intros k Hk. pose proof (Hclash k Hk) as Hnone.
        assert (k <> "environment") as H1.
        { intros ->; revert Hk; unfold create_keywords;
            rewrite !elem_of_cons, elem_of_nil; intuition discriminate. }
        by rewrite lookup_insert_ne by done. }
  (* the split between host arguments and container arguments *)
  unfold bind at 1. cbn [emit].
  assert ("environment" ∉ create_host_config_varnames lib
                          ++ ["cpu_quota"; "cpu_period"; "mem_limit"]) as Hnames'.
  { rewrite elem_of_app, !elem_of_cons, elem_of_nil. intuition discriminate. }
  pose proof (move_host_args_other
                (create_host_config_varnames lib ++ ["cpu_quota"; "cpu_period"; "mem_limit"])
                (match match volumes (self w) with
                       | Some (v :: l) => Some (v :: l)
                       | _ => None
                       end with
                 | Some l => {["binds" := PList l]}
                 | None => ∅
                 end) kw0 "environment" Hnames') as Hm1.
  pose proof (fun k => move_host_args_absent
                (create_host_config_varnames lib ++ ["cpu_quota"; "cpu_period"; "mem_limit"])
                (match match volumes (self w) with
                       | Some (v :: l) => Some (v :: l)
                       | _ => None
                       end with
                 | Some l => {["binds" := PList l]}
                 | None => ∅
                 end) kw0 k) as Hm2.
  destruct (foldl (move_host_arg lib) _ _) as [ha kw1]. cbn [snd] in Hm1, Hm2.
  unfold bind at 1. rewrite Hm1, Hk1. cbn [ret].
  unfold bind at 1. cbn [emit].
  unfold bind at 1. destruct (Hhc ha) as [hc ->]. cbn [ret].
  assert (existsb (fun k => bool_decide (is_Some (kw1 !! k))) create_keywords = false) as ->.
  { apply not_true_is_false. intros Hex.
    apply existsb_exists in Hex as (k & Hin & Hk).
    apply bool_decide_eq_true_1 in Hk. apply list_elem_of_In in Hin.
    rewrite (Hm2 k (Hk3 k Hin)) in Hk. by destruct Hk. }
  run_m.
  destruct (create_container_reply _ _ _); simpl;
    (eexists; eexists; eexists; split; [reflexivity|]); simpl;
    (split; [reflexivity|]); cbn [cr_kwargs]; (split; [by rewrite Hm1|]); by apply Hm2.
Qed.

Lemma start_created_trace w r w' :
  start_created d w = (r, w') ->
  exists new, trace w' = new ++ trace w /\ count_ev is_create new = O.
Proof.
  unfold start_created. unfold bind at 1. cbn [get_self].
  destruct (container (self w)) as [c|] eqn:Hc; [|intros [= <- <-]; by exists []].
  run_m. destruct (start_reply _ _ _); simpl.
  - intros [= <- <-]. by eexists [_; _].
  - rewrite ?Hc. run_m.
    destruct (inspect_container_reply _ _ _); simpl; intros [= <- <-]; by eexists [_; _; _].
Qed.

End Create.

(** C8. The creation request that [start] sends while the handle is not
    running carries, under [environment], the mapping of the kwargs updated
    with the handle's [environ] and then with the mapping decoded from
    [env_json] when that kwarg is present (each later source winning on the
    keys it holds, the other keys kept), and carries no [env_json] key. *)
Theorem start_create_environment (d : Engine) (lib : PyLib) kw w
    (kenv : option (gmap string string)) (jtext : option string) (jenv : gmap string string) :
  running (self w) = false ->
  kw !! "environment" = PDict <$> kenv ->
  kw !! "env_json" = PStr <$> jtext ->
  match jtext with Some s => json_loads lib s = inr jenv | None => jenv = ∅ end ->
  "environment" ∉ create_host_config_varnames lib ->
  (forall k, k ∈ create_keywords -> kw !! k = None) ->
  (forall args, exists hc, create_host_config_reply d args = inr hc) ->
  exists req,
    In (EvCreateContainer req) (trace (start d lib kw w).2)
    /\ count_ev is_create (trace (start d lib kw w).2) = S (count_ev is_create (trace w))
    /\ cr_kwargs req !! "environment"
       = Some (PDict (jenv ∪ (environ (self w) ∪ default ∅ kenv)))
    /\ cr_kwargs req !! "env_json" = None
    /\ (forall k v, jenv !! k = Some v ->
        (jenv ∪ (environ (self w) ∪ default ∅ kenv)) !! k = Some v)
    /\ (forall k v, jenv !! k = None -> environ (self w) !! k = Some v ->
        (jenv ∪ (environ (self w) ∪ default ∅ kenv)) !! k = Some v)
    /\ (forall k v, jenv !! k = None -> environ (self w) !! k = None ->
        default ∅ kenv !! k = Some v ->
        (jenv ∪ (environ (self w) ∪ default ∅ kenv)) !! k = Some v).
Proof.
  intros Hrun Henv Hjson Hdec Hnames Hclash Hhc.
  destruct (create_container_request d lib kw w kenv jtext jenv
              Hrun Henv Hjson Hdec Hnames Hclash Hhc) as (req & r & w' & Hc & Ht & He & Hj).
  exists req.
  assert (In (EvCreateContainer req) (trace (start d lib kw w).2)
          /\ count_ev is_create (trace (start d lib kw w).2) = S (count_ev is_create (trace w)))
    as [H1 H2].
  { unfold start, bind. rewrite Hc.
    destruct r as [[]|e|]; cbv beta iota zeta; cbn [snd];
      try (rewrite Ht; split; [by left|done]).
    destruct (start_created d w') as [r2 w2] eqn:E. cbn [snd].
    destruct (start_created_trace d _ _ _ E) as (new & -> & Hn).
    rewrite count_ev_app, Hn, Ht. split; [|done].
    apply in_or_app. right. by left. }
  split; [exact H1|]. split; [exact H2|]. split; [exact He|]. split; [exact Hj|].
  split; [|split].
  - intros k v Hk. by apply lookup_union_Some_l.
  - intros k v Hk1 Hk2. rewrite lookup_union_r by done. by apply lookup_union_Some_l.
  - intros k v Hk1 Hk2 Hk3. by rewrite !lookup_union_r by done.
Qed.

Lemma start_create_environment_witness :
  let d := example_engine 0 (fun _ => Some 0%Z) in
  let kw : gmap string pyval :=
    {[ "environment" := PDict {[ "A" := "kwargs"; "B" := "kwargs" ]};
       "env_json" := PStr example_env_json;
       "mem_limit" := PStr "512" ]} in
  let w := (__init__ "img" None false "output" true None None ∅
              (fresh_world {[ "CTF_DOCKER_ENV" := "B=instance" ]})).2 in
  exists req,
    In (EvCreateContainer req) (trace (start d example_lib kw w).2)
    /\ cr_kwargs req !! "environment"
       = Some (PDict {[ "A" := "kwargs"; "B" := "instance"; "DEBUG" := "1" ]})
    /\ cr_kwargs req !! "env_json" = None.
Proof.
  intros d kw w.
  destruct (start_create_environment d example_lib kw w
              (Some {[ "A" := "kwargs"; "B" := "kwargs" ]}) (Some example_env_json)
              {[ "DEBUG" := "1" ]})
    as (req & H1 & _ & H3 & H4 & _).
  - reflexivity.
  - reflexivity.
  - reflexivity.
  - reflexivity.
  - cbn. rewrite !elem_of_cons, elem_of_nil. intuition discriminate.
  - intros k. unfold create_keywords. rewrite !elem_of_cons, elem_of_nil.
    intros [-> | [-> | [-> | [-> | [-> | []]]]]]; reflexivity.
  - intros args. by exists args.
  - exists req. split; [exact H1|]. split; [|exact H4].
    rewrite H3. reflexivity.
Defined.

(** ** The context manager *)

(** Leaving a [with] block runs [__exit__] on the world the body left,
    whether the body ended normally or raised. *)
Lemma with_handle_runs_exit (d : Engine) (lib : PyLib) {A} (fuel : nat) (body : M A) w w1 rb w2 :
  __enter__ d lib w = (Ok tt, w1) ->
  body w1 = (rb, w2) ->
  rb <> Diverge ->
  (with_handle d lib fuel body w).2 = (__exit__ d fuel w2).2.
Proof.
  intros He Hb Hd. unfold with_handle. unfold bind at 1. rewrite He, Hb.
  destruct rb as [a|e|]; [| |done]; unfold bind;
    by destruct (__exit__ d fuel w2) as [[[]|e'|] w3].
Qed.

(** C2. [__exit__] always runs [stop] first and ends in the world that
    [stop] left.  With [remove_image] set it never removes the image: the
    name [self.remove_image] is the boolean stored by [__init__], so when
    [stop] succeeds the call raises a [TypeError], and no image removal is
    ever requested from the engine. *)
Theorem exit_remove_image_raises (d : Engine) (fuel : nat) w r w1 :
  remove_image (self w) = true ->
  stop d fuel w = (r, w1) ->
  (r = Ok tt ->
   __exit__ d fuel w = (Raise (TypeError "'bool' object is not callable"), w1))
  /\ (r <> Ok tt -> __exit__ d fuel w = (r, w1))
  /\ count_ev is_remove_image (trace (__exit__ d fuel w).2)
     = count_ev is_remove_image (trace w).
Proof.
  intros Hflag Hstop.
  destruct (stop_flag d fuel w r w1 Hstop) as [Hf Ht].
  unfold __exit__, bind. rewrite Hstop.
  destruct r as [[]|e|]; cbn [get_self getattr_remove_image truthy].
  - rewrite Hf, Hflag. cbn [py_call raise snd]. by repeat split.
  - cbn [snd]. by repeat split.
  - cbn [snd]. by repeat split.
Qed.

Lemma exit_remove_image_raises_witness :
  let d := example_engine 0 (fun _ => Some 0%Z) in
  let w := started_world (Some "web") true {| Id := "c0ffee0" |} in
  (__exit__ d 4 w).1 = Raise (TypeError "'bool' object is not callable")
  /\ container (self (__exit__ d 4 w).2) = None
  /\ count_ev is_remove_image (trace (__exit__ d 4 w).2) = 0%nat.
Proof.
  intros d w.
  destruct (exit_remove_image_raises d 4 w (Ok tt) (stop d 4 w).2) as (H1 & _ & H3).
  - reflexivity.
  - vm_compute. reflexivity.
  - rewrite (H1 eq_refl). split; [reflexivity|]. split; [reflexivity|].
    rewrite (H1 eq_refl) in H3. exact H3.
Defined.

(** * Further properties of the module *)

(** ** [execute]: bounded polling *)

Section ExecuteBounds.
Context (d : Engine).

(** From the counter value [15 - n] the loop makes at most [n + 1] more
    turns, for every behaviour of the engine, and it touches neither the
    handle nor the filesystem. *)
Lemma poll_exit_code_bounded (n : nat) : forall fuel inst cmd output w r w',
  (n < fuel)%nat ->
  (n <= 15)%nat ->
  poll_exit_code d fuel inst cmd output (15 - Z.of_nat n) None w = (r, w') ->
  r <> Diverge /\ self w' = self w /\ fs w' = fs w
  /\ exists new, trace w' = new ++ trace w
       /\ (count_ev is_exec_inspect new <= S n)%nat
       /\ (count_ev is_sleep new <= S n)%nat
       /\ count_ev is_exec_create new = O /\ count_ev is_exec_start new = O.
Proof.
  induction n as [|n IH]; intros fuel inst cmd output w r w' Hfuel Hn.
  - destruct fuel as [|fuel]; [lia|].
    cbn [poll_exit_code]. run_m.
    destruct (exec_inspect_reply _ _ _) as [e|x]; simpl; intros [= <- <-]; simpl.
    + split; [done|]. split; [done|]. split; [done|].
      exists [EvExecInspect inst]. simpl. repeat split; lia.
    + split; [done|]. split; [done|]. split; [done|].
      exists [EvSleep 1; EvExecInspect inst]. simpl. repeat split; lia.
  - destruct fuel as [|fuel]; [lia|].
    remember (15 - Z.of_nat (S n))%Z as count eqn:Hcount.
    cbn [poll_exit_code]. run_m.
    destruct (exec_inspect_reply _ _ _) as [e|x]; simpl.
    + intros [= <- <-]; simpl. split; [done|]. split; [done|]. split; [done|].
      exists [EvExecInspect inst]. simpl. repeat split; lia.
    + replace (count + 1 >? 15)%Z with false by lia.
      replace (count + 1)%Z with (15 - Z.of_nat n)%Z by lia.
      destruct x as [rc|].
      * rewrite poll_exit_code_resolved. intros [= <- <-]; simpl.
        split; [done|]. split; [done|]. split; [done|].
        exists [EvSleep 1; EvExecInspect inst]. simpl. repeat split; lia.
      * intros H. apply IH in H as (H1 & H2 & H3 & new & H4 & H5 & H6 & H7 & H8); [|lia|lia].
        simpl in H2, H3, H4. split; [done|]. split; [done|]. split; [done|].
        exists (new ++ [EvSleep 1; EvExecInspect inst]).
        rewrite <- app_assoc, !count_ev_app. simpl. repeat split; try done; lia.
Qed.

(** More fuel does not change a run that ended. *)
Lemma poll_exit_code_fuel fuel : forall inst cmd output count retcode w r w',
  poll_exit_code d fuel inst cmd output count retcode w = (r, w') ->
  r <> Diverge ->
  forall fuel', (fuel <= fuel')%nat ->
  poll_exit_code d fuel' inst cmd output count retcode w = (r, w').
Proof.
  induction fuel as [|fuel IH]; intros inst cmd output count retcode w r w' Hrun Hr fuel' Hf.
  - destruct retcode as [rc|].
    + rewrite poll_exit_code_resolved in *. done.
    + simpl in Hrun. by injection Hrun as <- <-.
  - destruct retcode as [rc|].
    + rewrite poll_exit_code_resolved in *. done.
    + destruct fuel' as [|fuel']; [lia|].
      revert Hrun. cbn [poll_exit_code]. run_m.
      destruct (exec_inspect_reply _ _ _) as [e|x]; simpl; [done|].
      destruct (count + 1 >? 15)%Z; [done|].
      intros Hrun. apply (IH _ _ _ _ _ _ _ _ Hrun Hr). lia.
Qed.

End ExecuteBounds.

(** X1. For every behaviour of the engine, [execute] ends (16 units of fuel
    are enough for the loop), leaves the handle and the filesystem as they
    were, sends one exec-create request and at most one exec-start request,
    inspects the exit code at most 17 times and sleeps at most 16 times. *)
Theorem execute_bounded (d : Engine) (fuel : nat) cmd detach w r w' :
  (16 <= fuel)%nat ->
  execute d fuel cmd detach w = (r, w') ->
  r <> Diverge /\ self w' = self w /\ fs w' = fs w
  /\ count_ev is_exec_create (trace w') = S (count_ev is_exec_create (trace w))
  /\ (count_ev is_exec_start (trace w') <= S (count_ev is_exec_start (trace w)))%nat
  /\ (count_ev is_exec_inspect (trace w') <= count_ev is_exec_inspect (trace w) + 17)%nat
  /\ (count_ev is_sleep (trace w') <= count_ev is_sleep (trace w) + 16)%nat.
Proof.
  intros Hfuel. unfold execute. run_m.
  destruct (exec_create_reply _ _ _ _) as [e|inst]; simpl.
  { intros [= <- <-]; simpl. repeat split; try done; lia. }
  destruct detach; simpl.
  { destruct (exec_start_reply _ _ _ _) as [e|out]; simpl; intros [= <- <-]; simpl;
      repeat split; try done; lia. }
  destruct (exec_start_reply _ _ _ _) as [e|output]; simpl.
  { intros [= <- <-]; simpl. repeat split; try done; lia. }
  destruct (exec_inspect_reply _ _ _) as [e|retcode]; simpl.
  { intros [= <- <-]; simpl. repeat split; try done; lia. }
  destruct retcode as [rc|].
  - rewrite poll_exit_code_resolved.
    destruct (negb (rc =? 0)%Z); intros [= <- <-]; simpl; repeat split; try done; lia.
  - match goal with |- context [poll_exit_code d fuel inst cmd output 0 None ?w0] =>
      destruct (poll_exit_code d fuel inst cmd output 0 None w0) as [r1 w1] eqn:E
    end.
    change 0%Z with (15 - Z.of_nat 15)%Z in E.
    apply poll_exit_code_bounded in E as (H1 & H2 & H3 & new & H4 & H5 & H6 & H7 & H8);
      [|lia|lia].
    simpl in H2, H3, H4.
    destruct r1 as [rc|e|]; [|intros [= <- <-]|done].
    + destruct (negb (rc =? 0)%Z); intros [= <- <-]; rewrite H4, !count_ev_app; simpl;
        repeat split; try done; lia.
    + rewrite H4, !count_ev_app; simpl. repeat split; try done; lia.
Qed.

Lemma execute_bounded_witness :
  let d := example_engine 0 (fun n => if (n <? 3)%nat then None else Some 0%Z) in
  let w := started_world None false {| Id := "c0ffee0" |} in
  (execute d 16 "true" false w).1 <> Diverge
  /\ self (execute d 16 "true" false w).2 = self w.
Proof.
  intros d w.
  destruct (execute_bounded d 16 "true" false w (execute d 16 "true" false w).1
              (execute d 16 "true" false w).2) as (H1 & H2 & _).
  - lia.
  - reflexivity.
  - split; [exact H1 | exact H2].
Defined.

(** X2. The fuel of the model plays no role in [execute]: every amount of at
    least 16 gives the run that 16 gives. *)
Theorem execute_fuel_irrelevant (d : Engine) (fuel : nat) cmd detach w :
  (16 <= fuel)%nat ->
  execute d fuel cmd detach w = execute d 16 cmd detach w.
Proof.
  intros Hfuel.
  assert (forall f0, (16 <= f0 <= fuel)%nat ->
            execute d fuel cmd detach w = execute d f0 cmd detach w) as Hgen;
    [|apply Hgen; lia].
  intros f0 Hf0. unfold execute. run_m.
  destruct (exec_create_reply _ _ _ _) as [e|inst]; simpl; [done|].
  destruct detach; simpl; [done|].
  destruct (exec_start_reply _ _ _ _) as [e|output]; simpl; [done|].
  destruct (exec_inspect_reply _ _ _) as [e|retcode]; simpl; [done|].
  match goal with |- context [poll_exit_code d fuel inst cmd output 0 retcode ?w0] =>
    destruct (poll_exit_code d f0 inst cmd output 0 retcode w0) as [r1 w1] eqn:E
  end.
  assert (r1 <> Diverge) as Hr.
  { destruct retcode as [rc|].
    - rewrite poll_exit_code_resolved in E. by injection E as <- <-.
    - change 0%Z with (15 - Z.of_nat 15)%Z in E.
      apply poll_exit_code_bounded in E; [tauto|lia|lia]. }
  rewrite (poll_exit_code_fuel d f0 _ _ _ _ _ _ _ _ E Hr fuel); [done|lia].
Qed.

Lemma execute_fuel_irrelevant_witness :
  let d := example_engine 0 (fun _ => None) in
  let w := started_world None false {| Id := "c0ffee0" |} in
  execute d 40 "sleep 60" false w = execute d 16 "sleep 60" false w.
Proof.
  intros d w. apply (execute_fuel_irrelevant d 40 "sleep 60" false w). lia.
Defined.

(** X3. A detached [execute] never inspects the exit code and never sleeps,
    whatever the engine answers, and it returns [None] as soon as the engine
    accepts the exec creation and the exec start. *)
Theorem execute_detached_never_polls (d : Engine) (fuel : nat) cmd w :
  count_ev is_exec_inspect (trace (execute d fuel cmd true w).2)
    = count_ev is_exec_inspect (trace w)
  /\ count_ev is_sleep (trace (execute d fuel cmd true w).2) = count_ev is_sleep (trace w)
  /\ (execute d fuel cmd true w).1 <> Diverge
  /\ (forall inst out,
        exec_create_reply d (count_ev is_exec_create (trace w)) (container (self w)) cmd
          = inr inst ->
        exec_start_reply d (count_ev is_exec_start (trace w)) inst true = inr out ->
        (execute d fuel cmd true w).1 = Ok None).
Proof.
  unfold execute. run_m.
  destruct (exec_create_reply _ _ _ _) as [e|inst]; simpl.
  { repeat split; try done. }
  destruct (exec_start_reply _ _ _ _) as [e|out] eqn:Hs; simpl.
  - repeat split; try done. intros inst' out' [= <-]. by rewrite Hs.
  - by repeat split.
Qed.

(** X4. An exit code that becomes known only at the 16th poll of the loop is
    thrown away: [execute] raises the timeout even when that code is 0. *)
Theorem execute_late_exit_code_times_out (d : Engine) w (fuel : nat) cmd inst output rc :
  (16 <= fuel)%nat ->
  exec_create_reply d (count_ev is_exec_create (trace w)) (container (self w)) cmd = inr inst ->
  exec_start_reply d (count_ev is_exec_start (trace w)) inst false = inr output ->
  (forall j, (j <= 15)%nat ->
     exec_inspect_reply d (count_ev is_exec_inspect (trace w) + j) inst = inr None) ->
  exec_inspect_reply d (count_ev is_exec_inspect (trace w) + 16) inst = inr (Some rc) ->
  (execute d fuel cmd false w).1
  = Raise (ExecException ("Command " +:+ cmd +:+ " timed out, output: " +:+ output) None).
Proof.
  intros Hfuel Hcreate Hstart Hnone Hlast.
  unfold execute. run_m. rewrite Hcreate. simpl. rewrite Hstart. simpl.
  rewrite <- (Nat.add_0_r (count_ev is_exec_inspect (trace w))), (Hnone O) by lia. simpl.
  match goal with |- context [poll_exit_code d fuel inst cmd output 0 None ?w1] =>
    destruct (poll_exit_code_times_out d 15 fuel inst cmd output w1) as (new & Hp & _)
  end.
  - lia.
  - lia.
  - intros j Hj. simpl. rewrite <- (Hnone (S j)) by lia. f_equal. lia.
  - exists (Some rc). simpl. rewrite <- Hlast. f_equal. lia.
  - change (15 - Z.of_nat 15)%Z with 0%Z in Hp. by rewrite Hp.
Qed.

Lemma execute_late_exit_code_times_out_witness :
  let d := example_engine 0 (fun n => if (n <? 16)%nat then None else Some 0%Z) in
  let w := started_world None false {| Id := "c0ffee0" |} in
  (execute d 16 "make" false w).1
  = Raise (ExecException "Command make timed out, output: hello" None).
Proof.
  intros d w.
  apply (execute_late_exit_code_times_out d w 16 "make" "exec0" "hello" 0).
  - lia.
  - reflexivity.
  - reflexivity.
  - intros j Hj.
    assert (j < 16)%nat as Hlt by lia. simpl.
    unfold example_engine. simpl. apply Nat.ltb_lt in Hlt. by rewrite Hlt.
  - reflexivity.
Defined.

(** ** [stop]: bounded retries, what a finished stop leaves *)

Section StopBounds.
Context (d : Engine).

(** The removal changes nothing of the handle and sends removal requests
    only, whatever the fuel and the attempt number. *)
Lemma remove_container_self fuel : forall number w r w',
  _remove_container d fuel number w = (r, w') ->
  self w' = self w
  /\ count_ev is_kill (trace w') = count_ev is_kill (trace w)
  /\ count_ev is_inspect (trace w') = count_ev is_inspect (trace w)
  /\ count_ev is_logs (trace w') = count_ev is_logs (trace w).
Proof.
  induction fuel as [|fuel IH]; intros number w r w'.
  - by intros [= <- <-].
  - cbn [_remove_container]. unfold bind at 1. cbn [get_self].
    destruct (container (self w)) as [c|]; [|by intros [= <- <-]].
    run_m. destruct (remove_container_reply _ _ _); simpl; [|by intros [= <- <-]].
    destruct (number >? 3)%Z; simpl; [by intros [= <- <-]|].
    intros H. by destruct (IH _ _ _ _ H).
Qed.

(** From attempt number [4 - m] on, at most [m + 1] removal requests and
    [m] sleeps follow, for every behaviour of the engine. *)
Lemma remove_container_bounded (m : nat) : forall fuel w r w',
  (m < fuel)%nat ->
  (m <= 3)%nat ->
  _remove_container d fuel (4 - Z.of_nat m) w = (r, w') ->
  r <> Diverge
  /\ exists new, trace w' = new ++ trace w
       /\ (count_ev is_remove new <= S m)%nat
       /\ (count_ev is_sleep new <= m)%nat.
Proof.
  induction m as [|m IH]; intros fuel w r w' Hfuel Hm.
  - destruct fuel as [|fuel]; [lia|].
    cbn [_remove_container]. unfold bind at 1. cbn [get_self].
    destruct (container (self w)) as [c|].
    2:{ intros [= <- <-]. split; [done|]. exists []. simpl. repeat split; lia. }
    run_m. destruct (remove_container_reply _ _ _); simpl; intros [= <- <-]; simpl.
    + split; [done|]. eexists [_; _; _]. split; [reflexivity|]. simpl. split; lia.
    + split; [done|]. eexists [_; _; _]. split; [reflexivity|]. simpl. split; lia.
  - destruct fuel as [|fuel]; [lia|].
    remember (4 - Z.of_nat (S m))%Z as number eqn:Hnumber.
    cbn [_remove_container]. unfold bind at 1. cbn [get_self].
    destruct (container (self w)) as [c|].
    2:{ intros [= <- <-]. split; [done|]. exists []. simpl. repeat split; lia. }
    run_m. destruct (remove_container_reply _ _ _); simpl.
    + replace (number >? 3)%Z with false by lia. simpl.
      replace (number + 1)%Z with (4 - Z.of_nat m)%Z by lia.
      intros H. apply IH in H as (H1 & new & H2 & H3 & H4); [|lia|lia].
      simpl in H2. split; [done|].
      exists (new ++ [EvSleep 20;
                      EvLog INFO ("Removing container '" +:+ Id c +:+ "' failed") [];
                      EvRemoveContainer c;
                      EvLog INFO ("Removing container '" +:+ Id c +:+ "', "
                                  +:+ pretty number +:+ " try...") []]).
      rewrite <- app_assoc, !count_ev_app. simpl. split; [done|]. split; lia.
    + intros [= <- <-]; simpl. split; [done|].
      eexists [_; _; _]. split; [reflexivity|]. simpl. split; lia.
Qed.

Lemma remove_container_fuel fuel : forall number w r w',
  _remove_container d fuel number w = (r, w') ->
  r <> Diverge ->
  forall fuel', (fuel <= fuel')%nat ->
  _remove_container d fuel' number w = (r, w').
Proof.
  induction fuel as [|fuel IH]; intros number w r w' Hrun Hr fuel' Hf.
  - simpl in Hrun. by injection Hrun as <- <-.
  - destruct fuel' as [|fuel']; [lia|].
    revert Hrun. cbn [_remove_container]. run_m.
    destruct (container (self w)) as [c|]; simpl; [|done].
    destruct (remove_container_reply _ _ _); simpl; [|done].
    destruct (number >? 3)%Z; simpl; [done|].
    intros Hrun. apply (IH _ _ _ _ Hrun Hr). lia.
Qed.

End StopBounds.

Section StopEffects.
Context (d : Engine).

Lemma stop_save_output_counts w r w1 :
  stop_save_output d w = (r, w1) ->
  r <> Diverge
  /\ count_ev is_sleep (trace w1) = count_ev is_sleep (trace w)
  /\ (count_ev is_logs (trace w1) <= S (count_ev is_logs (trace w)))%nat.
Proof.
  unfold stop_save_output. unfold bind at 1. cbn [get_self].
  destruct (running (self w) && save_output (self w))%bool;
    [|intros [= <- <-]; repeat split; (done || lia)].
  destruct (container (self w)) as [c|] eqn:Hc;
    [|intros [= <- <-]; repeat split; (done || lia)].
  unfold makedirs, write_printed. run_m.
  destruct (bool_decide (is_Some (fs w !! output_dir (self w)))); simpl.
  - destruct (open_reply _ _ _); simpl; [intros [= <- <-]; repeat split; (done || simpl; lia)|].
    destruct (logs_reply _ _ _); simpl; intros [= <- <-]; repeat split; (done || simpl; lia).
  - destruct (makedirs_reply _ _ _); simpl;
      [intros [= <- <-]; repeat split; (done || simpl; lia)|].
    destruct (open_reply _ _ _); simpl; [intros [= <- <-]; repeat split; (done || simpl; lia)|].
    destruct (logs_reply _ _ _); simpl; intros [= <- <-]; repeat split; (done || simpl; lia).
Qed.

Lemma stop_remove_bounded fuel w r w' :
  (4 <= fuel)%nat ->
  stop_remove d fuel w = (r, w') ->
  r <> Diverge
  /\ (count_ev is_remove (trace w') <= count_ev is_remove (trace w) + 4)%nat
  /\ (count_ev is_sleep (trace w') <= count_ev is_sleep (trace w) + 3)%nat
  /\ (count_ev is_kill (trace w') <= S (count_ev is_kill (trace w)))%nat
  /\ (count_ev is_inspect (trace w') <= S (count_ev is_inspect (trace w)))%nat
  /\ count_ev is_logs (trace w') = count_ev is_logs (trace w).
Proof.
  intros Hfuel. unfold stop_remove. unfold bind at 1. cbn [get_self].
  destruct (container (self w)) as [c|] eqn:Hc;
    [|intros [= <- <-]; repeat split; (done || lia)].
  run_m. rewrite Hc. run_m.
  destruct (inspect_container_reply _ _ _) as [e|info]; simpl;
    [intros [= <- <-]; simpl; repeat split; (done || lia)|].
  assert (forall w0 : world,
            count_ev is_remove (trace w0) = count_ev is_remove (trace w) ->
            count_ev is_sleep (trace w0) = count_ev is_sleep (trace w) ->
            (count_ev is_kill (trace w0) <= S (count_ev is_kill (trace w)))%nat ->
            count_ev is_inspect (trace w0) = S (count_ev is_inspect (trace w)) ->
            count_ev is_logs (trace w0) = count_ev is_logs (trace w) ->
            (let (o, w2) := _remove_container d fuel 1 w0 in
             match o with
             | Ok _ => (Ok tt, {| self := with_container None (self w2);
                                  os_environ := os_environ w2; fs := fs w2;
                                  trace := trace w2 |})
             | Raise e => (Raise e, w2)
             | Diverge => (Diverge, w2)
             end) = (r, w') ->
            r <> Diverge
            /\ (count_ev is_remove (trace w') <= count_ev is_remove (trace w) + 4)%nat
            /\ (count_ev is_sleep (trace w') <= count_ev is_sleep (trace w) + 3)%nat
            /\ (count_ev is_kill (trace w') <= S (count_ev is_kill (trace w)))%nat
            /\ (count_ev is_inspect (trace w') <= S (count_ev is_inspect (trace w)))%nat
            /\ count_ev is_logs (trace w') = count_ev is_logs (trace w)) as Hrest.
  { intros w0 Hr Hs Hk Hi Hl.
    destruct (_remove_container d fuel 1 w0) as [o w2] eqn:E.
    destruct (remove_container_self d _ _ _ _ _ E) as (_ & Fk & Fi & Fl).
    change 1%Z with (4 - Z.of_nat 3)%Z in E.
    apply remove_container_bounded in E as (Hd & new & Ht & Hnr & Hns); [|lia|lia].
    assert (count_ev is_remove (trace w2) <= count_ev is_remove (trace w) + 4)%nat
      by (rewrite Ht, count_ev_app; lia).
    assert (count_ev is_sleep (trace w2) <= count_ev is_sleep (trace w) + 3)%nat
      by (rewrite Ht, count_ev_app; lia).
    destruct o as [[]|e|]; [| |done]; intros [= <- <-]; simpl;
      repeat split; (done || lia). }
  destruct (State_Running info); simpl.
  - destruct (kill_reply _ _ _); simpl.
    + intros [= <- <-]; simpl. repeat split; (done || lia).
    + apply Hrest; simpl; (done || lia).
  - apply Hrest; simpl; (done || lia).
Qed.

Lemma stop_remove_ok fuel w w' c :
  container (self w) = Some c ->
  stop_remove d fuel w = (Ok tt, w') ->
  running (self w') = false /\ container (self w') = None.
Proof.
  intros Hc. unfold stop_remove. unfold bind at 1. cbn [get_self]. rewrite Hc.
  run_m. rewrite Hc. run_m.
  destruct (inspect_container_reply _ _ _) as [e|info]; simpl; [done|].
  destruct (State_Running info); simpl.
  - destruct (kill_reply _ _ _); simpl; [done|].
    destruct (_remove_container _ _ _ _) as [[[]|e|] w2] eqn:E; [|done|done].
    destruct (remove_container_self d _ _ _ _ _ E) as [Hs _].
    intros [= <-]. simpl. by rewrite Hs.
  - destruct (_remove_container _ _ _ _) as [[[]|e|] w2] eqn:E; [|done|done].
    destruct (remove_container_self d _ _ _ _ _ E) as [Hs _].
    intros [= <-]. simpl. by rewrite Hs.
Qed.

Lemma stop_nothing_to_do fuel w :
  container (self w) = None ->
  (running (self w) && save_output (self w))%bool = false ->
  stop d fuel w = (Ok tt, w).
Proof.
  intros Hc Hrs. unfold stop, stop_save_output, stop_remove.
  unfold bind, get_self, ret. by rewrite Hrs, Hc.
Qed.

End StopEffects.

(** X5. For every behaviour of the engine and of the filesystem, [stop]
    ends (4 units of fuel are enough for the retries) after at most one logs
    request, one inspection, one kill request, four removal requests and
    three sleeps. *)
Theorem stop_bounded (d : Engine) (fuel : nat) w r w' :
  (4 <= fuel)%nat ->
  stop d fuel w = (r, w') ->
  r <> Diverge
  /\ (count_ev is_logs (trace w') <= S (count_ev is_logs (trace w)))%nat
  /\ (count_ev is_inspect (trace w') <= S (count_ev is_inspect (trace w)))%nat
  /\ (count_ev is_kill (trace w') <= S (count_ev is_kill (trace w)))%nat
  /\ (count_ev is_remove (trace w') <= count_ev is_remove (trace w) + 4)%nat
  /\ (count_ev is_sleep (trace w') <= count_ev is_sleep (trace w) + 3)%nat.
Proof.
  intros Hfuel. unfold stop, bind.
  destruct (stop_save_output d w) as [r1 w1] eqn:E1.
  destruct (stop_save_output_counts d _ _ _ E1) as (Hd & Hs & Hl).
  destruct (stop_save_output_frame d _ _ _ E1) as (_ & _ & Fr & Fi & Fk).
  destruct r1 as [[]|e|]; [| |done].
  - intros E2. apply stop_remove_bounded in E2 as (H1 & H2 & H3 & H4 & H5 & H6); [|done].
    repeat split; (done || lia).
  - intros [= <- <-]. repeat split; (done || lia).
Qed.

Lemma stop_bounded_witness :
  let d := example_engine 9 (fun _ => Some 0%Z) in
  let w := started_world (Some "web") false {| Id := "c0ffee0" |} in
  (stop d 4 w).1 <> Diverge
  /\ (count_ev is_remove (trace (stop d 4 w).2) <= 4)%nat.
Proof.
  intros d w.
  destruct (stop_bounded d 4 w (stop d 4 w).1 (stop d 4 w).2) as (H1 & _ & _ & _ & H5 & _).
  - lia.
  - apply surjective_pairing.
  - split; [exact H1 | exact H5].
Defined.

Lemma stop_ok_state (d : Engine) (fuel : nat) w w1 :
  stop d fuel w = (Ok tt, w1) ->
  container (self w1) = None
  /\ (running (self w1) && save_output (self w1))%bool = false.
Proof.
  unfold stop at 1. unfold bind.
  destruct (stop_save_output d w) as [r0 w0] eqn:E0.
  destruct r0 as [[]|e|]; [|done|done].
  intros E1.
  destruct (container (self w)) as [c|] eqn:Hc.
  - destruct (stop_save_output_frame d _ _ _ E0) as (Fc & _).
    rewrite Hc in Fc.
    destruct (stop_remove_ok d fuel w0 w1 c Fc E1) as [Hr Hn].
    split; [done|]. by rewrite Hr.
  - revert E0 E1. unfold stop_save_output, stop_remove.
    unfold bind, get_self, ret, raise. rewrite Hc.
    destruct (running (self w) && save_output (self w))%bool eqn:Hrs; [done|].
    intros [= <-]. rewrite Hc. by intros [= <-].
Qed.

(** X6. A [stop] that returns normally leaves the handle without a container
    reference, and a second [stop] then does nothing at all: no request, no
    file, the same world. *)
Theorem stop_twice (d : Engine) (fuel fuel' : nat) w w1 :
  stop d fuel w = (Ok tt, w1) ->
  container (self w1) = None /\ stop d fuel' w1 = (Ok tt, w1).
Proof.
  intros Hstop. destruct (stop_ok_state d fuel w w1 Hstop) as [Hc Hrs].
  split; [exact Hc|]. apply stop_nothing_to_do; [exact Hc | exact Hrs].
Qed.

Lemma stop_twice_witness :
  let d := example_engine 1 (fun _ => Some 0%Z) in
  let w := started_world (Some "web") false {| Id := "c0ffee0" |} in
  container (self (stop d 4 w).2) = None
  /\ stop d 4 (stop d 4 w).2 = (Ok tt, (stop d 4 w).2).
Proof.
  intros d w. apply (stop_twice d 4 4 w (stop d 4 w).2). vm_compute. reflexivity.
Defined.

(** X7. [stop] kills only a container that the engine reports as running:
    once the output is saved, the number of kill requests it sends is one
    when the inspection says [Running], none otherwise. *)
Theorem stop_kills_only_running (d : Engine) (fuel : nat) w c info :
  container (self w) = Some c ->
  (stop_save_output d w).1 = Ok tt ->
  inspect_container_reply d (count_ev is_inspect (trace w)) (Id c) = inr info ->
  count_ev is_kill (trace (stop d fuel w).2)
  = (count_ev is_kill (trace w) + if State_Running info then 1 else 0)%nat.
Proof.
  intros Hc Hsave Hinsp. unfold stop, bind.
  destruct (stop_save_output d w) as [r1 w1] eqn:E1. simpl in Hsave. subst r1.
  destruct (stop_save_output_frame d _ _ _ E1) as (Fc & _ & _ & Fi & Fk).
  rewrite Hc in Fc. rewrite <- Fi in Hinsp. rewrite <- Fk. clear E1.
  unfold stop_remove. unfold bind at 1. cbn [get_self]. rewrite Fc.
  run_m. rewrite Fc. run_m. rewrite Hinsp. simpl.
  destruct (State_Running info); simpl.
  - destruct (kill_reply _ _ _); simpl; [lia|].
    destruct (_remove_container _ _ _ _) as [o w2] eqn:E.
    destruct (remove_container_self d _ _ _ _ _ E) as (_ & Hk & _).
    simpl in Hk. destruct o; simpl; lia.
  - destruct (_remove_container _ _ _ _) as [o w2] eqn:E.
    destruct (remove_container_self d _ _ _ _ _ E) as (_ & Hk & _).
    simpl in Hk. destruct o; simpl; lia.
Qed.

Lemma stop_kills_only_running_witness :
  let d := example_engine 0 (fun _ => Some 0%Z) in
  let w := started_world None false {| Id := "c0ffee0" |} in
  count_ev is_kill (trace (stop d 4 w).2) = 1%nat.
Proof.
  intros d w.
  apply (stop_kills_only_running d 4 w {| Id := "c0ffee0" |}
           {| State_Running := true; NetworkSettings_IPAddress := "172.17.0.2" |});
    reflexivity.
Defined.

(** X8. When the engine fails to hand over the logs, [stop] raises that
    error before any teardown: the container is neither inspected, killed
    nor removed, the handle keeps its container reference and its running
    flag, and the log file is left empty. *)
Theorem stop_logs_failure_skips_teardown (d : Engine) (fuel : nat) w c e :
  running (self w) = true -> save_output (self w) = true ->
  container (self w) = Some c ->
  let nm := match name (self w) with
            | Some n => if String.eqb n "" then Id c else n +:+ "_" +:+ Id c
            | None => Id c
            end in
  let path := output_dir (self w) +:+ "/"
              +:+ str_replace " " "_" (str_filter re_word_or_space nm) +:+ ".txt" in
  (fs w !! output_dir (self w) = None ->
   makedirs_reply d (count_ev is_makedirs (trace w)) (output_dir (self w)) = None) ->
  open_reply d (count_ev is_open (trace w)) path = None ->
  logs_reply d (count_ev is_logs (trace w)) (Id c) = inl e ->
  (stop d fuel w).1 = Raise e
  /\ container (self (stop d fuel w).2) = Some c
  /\ running (self (stop d fuel w).2) = true
  /\ count_ev is_inspect (trace (stop d fuel w).2) = count_ev is_inspect (trace w)
  /\ count_ev is_kill (trace (stop d fuel w).2) = count_ev is_kill (trace w)
  /\ count_ev is_remove (trace (stop d fuel w).2) = count_ev is_remove (trace w)
  /\ fs (stop d fuel w).2 !! path = Some (File "").
Proof.
  intros Hrun Hsave Hc nm path Hmk Hopen Hlogs.
  assert (exists w1, stop_save_output d w = (Raise e, w1)
                     /\ fs w1 !! path = Some (File "")) as (w1 & E & Hfile).
  { unfold stop_save_output. unfold bind at 1. cbn [get_self].
    rewrite Hrun, Hsave, Hc. cbn [andb].
    unfold makedirs, write_printed. run_m.
    replace (match name (self w) with
             | Some n => if negb (n =? "") then n +:+ "_" +:+ Id c else Id c
             | None => Id c
             end) with nm
      by (subst nm; destruct (name (self w)) as [n|]; [by destruct (n =? "")|done]).
    fold path.
    destruct (fs w !! output_dir (self w)) as [node|] eqn:Hdir.
    - rewrite bool_decide_eq_true_2 by by eexists. simpl.
      rewrite Hopen. simpl. rewrite Hlogs. simpl.
      eexists. split; [reflexivity|]. simpl. apply lookup_insert_eq.
    - rewrite bool_decide_eq_false_2 by (intros [? ?]; congruence). simpl.
      rewrite Hmk by done. simpl.
      rewrite Hopen. simpl. rewrite Hlogs. simpl.
      eexists. split; [reflexivity|]. simpl. apply lookup_insert_eq. }
  destruct (stop_save_output_frame d _ _ _ E) as (Fc & Fr & Frm & Fi & Fk).
  unfold stop, bind. rewrite E. cbn [fst snd].
  rewrite Fc, Fr, Frm, Fi, Fk, Hc, Hrun. by repeat split.
Qed.

Lemma stop_logs_failure_skips_teardown_witness :
  let d := {| create_host_config_reply := fun args => inr args;
              create_container_reply := fun _ _ => inr {| Id := "c0ffee0" |};
              start_reply := fun _ _ => None;
              kill_reply := fun _ _ => None;
              remove_container_reply := fun _ _ => None;
              inspect_container_reply := fun _ _ =>
                inr {| State_Running := true; NetworkSettings_IPAddress := "172.17.0.2" |};
              logs_reply := fun _ _ => inl (EngineError "no such container");
              exec_create_reply := fun _ _ _ => inr "exec0";
              exec_start_reply := fun _ _ _ => inr "";
              exec_inspect_reply := fun _ _ => inr (Some 0%Z);
              remove_image_reply := fun _ _ _ => None;
              makedirs_reply := fun _ _ => None;
              open_reply := fun _ _ => None |} in
  let w := started_world (Some "web") false {| Id := "c0ffee0" |} in
  (stop d 4 w).1 = Raise (EngineError "no such container")
  /\ container (self (stop d 4 w).2) = Some {| Id := "c0ffee0" |}
  /\ count_ev is_remove (trace (stop d 4 w).2) = 0%nat.
Proof.
  intros d w.
  destruct (stop_logs_failure_skips_teardown d 4 w {| Id := "c0ffee0" |}
              (EngineError "no such container")) as (H1 & H2 & _ & _ & _ & H6 & _);
    try reflexivity.
  split; [exact H1|]. split; [exact H2 | exact H6].
Defined.

(** X9. A [stop] that saves the output overwrites the handle's [name] with
    the base name of the log (the old name, an underscore and the container
    identifier, or the identifier alone), whatever the teardown then does;
    a handle started and stopped again gets one more identifier appended. *)
Theorem stop_renames_handle (d : Engine) (fuel : nat) w c text :
  running (self w) = true -> save_output (self w) = true ->
  container (self w) = Some c ->
  let nm := match name (self w) with
            | Some n => if String.eqb n "" then Id c else n +:+ "_" +:+ Id c
            | None => Id c
            end in
  let path := output_dir (self w) +:+ "/"
              +:+ str_replace " " "_" (str_filter re_word_or_space nm) +:+ ".txt" in
  (fs w !! output_dir (self w) = None ->
   makedirs_reply d (count_ev is_makedirs (trace w)) (output_dir (self w)) = None) ->
  open_reply d (count_ev is_open (trace w)) path = None ->
  logs_reply d (count_ev is_logs (trace w)) (Id c) = inr text ->
  name (self (stop d fuel w).2) = Some nm.
Proof.
  intros Hrun Hsave Hc nm path Hmk Hopen Hlogs.
  destruct (stop_save_output_writes d w c text Hrun Hsave Hc Hmk Hopen Hlogs)
    as (w1 & Hw1 & _ & Hname).
  unfold stop, bind. rewrite Hw1.
  destruct (stop_remove d fuel w1) as [r w2] eqn:E.
  destruct (stop_remove_fs d _ _ _ _ E) as [_ Hn].
  replace (name _) with (name (self w2)) by by destruct r.
  by rewrite Hn.
Qed.

Lemma stop_renames_handle_witness :
  let d := example_engine 0 (fun _ => Some 0%Z) in
  let w := started_world (Some "web") false {| Id := "c0ffee0" |} in
  name (self (stop d 4 w).2) = Some "web_c0ffee0".
Proof.
  intros d w.
  apply (stop_renames_handle d 4 w {| Id := "c0ffee0" |} "started c0ffee0"); reflexivity.
Defined.

(** X10. A [stop] on a handle that is not running, or that was built with
    [save_output=False], asks the engine for no logs and leaves the
    filesystem and the handle's name untouched. *)
Theorem stop_without_saving (d : Engine) (fuel : nat) w :
  (running (self w) && save_output (self w))%bool = false ->
  fs (stop d fuel w).2 = fs w
  /\ name (self (stop d fuel w).2) = name (self w)
  /\ count_ev is_logs (trace (stop d fuel w).2) = count_ev is_logs (trace w).
Proof.
  intros Hrs. unfold stop, bind.
  assert (stop_save_output d w = (Ok tt, w)) as ->.
  { unfold stop_save_output, bind, get_self, ret. by rewrite Hrs. }
  destruct (stop_remove d fuel w) as [r w2] eqn:E.
  destruct (stop_remove_fs d _ _ _ _ E) as [Hf Hn].
  assert (count_ev is_logs (trace w2) = count_ev is_logs (trace w)) as Hl.
  { revert E. unfold stop_remove. unfold bind at 1. cbn [get_self].
    destruct (container (self w)) as [c|] eqn:Hc; [|by intros [= <- <-]].
    run_m. rewrite Hc. run_m.
    destruct (inspect_container_reply _ _ _) as [e|info]; simpl; [by intros [= <- <-]|].
    destruct (State_Running info); simpl.
    - destruct (kill_reply _ _ _); simpl; [by intros [= <- <-]|].
      destruct (_remove_container _ _ _ _) as [o w3] eqn:E3.
      destruct (remove_container_self d _ _ _ _ _ E3) as (_ & _ & _ & Hl).
      destruct o; intros [= <- <-]; simpl; by rewrite ?Hl.
    - destruct (_remove_container _ _ _ _) as [o w3] eqn:E3.
      destruct (remove_container_self d _ _ _ _ _ E3) as (_ & _ & _ & Hl).
      destruct o; intros [= <- <-]; simpl; by rewrite ?Hl. }
  destruct r; cbn [snd]; by rewrite Hf, Hn, Hl.
Qed.

Lemma stop_without_saving_witness :
  let d := example_engine 0 (fun _ => Some 0%Z) in
  let w := with_self (with_running false (started_handle (Some "web") false {| Id := "c0ffee0" |}))
             (started_world (Some "web") false {| Id := "c0ffee0" |}) in
  fs (stop d 4 w).2 = ∅ /\ name (self (stop d 4 w).2) = Some "web".
Proof.
  intros d w.
  destruct (stop_without_saving d 4 w) as (H1 & H2 & _); [reflexivity|].
  split; [exact H1 | exact H2].
Defined.

Lemma execute_detached_never_polls_witness :
  let d := example_engine 0 (fun _ => None) in
  let w := started_world None false {| Id := "c0ffee0" |} in
  (execute d 0 "tail -f /dev/null" true w).1 = Ok None
  /\ count_ev is_sleep (trace (execute d 0 "tail -f /dev/null" true w).2) = 0%nat.
Proof.
  intros d w.
  destruct (execute_detached_never_polls d 0 "tail -f /dev/null" w) as (_ & H2 & _ & H4).
  split; [|exact H2].
  apply (H4 "exec0" "hello"); reflexivity.
Defined.

(** ** The name of the log file *)

Lemma sanitised_char (c : ascii) :
  re_word_or_space c = true ->
  let c' := if Ascii.eqb c " " then "_"%char else c in
  re_word_or_space c' = true
  /\ Ascii.eqb c' " " = false /\ Ascii.eqb c' "/" = false
  /\ Ascii.eqb c' "." = false.
Proof.
  destruct c as [[] [] [] [] [] [] [] []]; vm_compute; intros H;
    first [discriminate H | repeat split].
Qed.

(** X11. The base name that [stop] gives the log file holds word characters
    only: no path separator, no dot, no space, whatever the handle's name
    was; and cleaning a name that is already clean changes nothing. *)
Theorem log_file_name_is_clean (s : string) :
  let clean x := str_replace " " "_" (str_filter re_word_or_space x) in
  has_char "/" (clean s) = false
  /\ has_char "." (clean s) = false
  /\ has_char " " (clean s) = false
  /\ clean (clean s) = clean s.
Proof.
  cbv zeta. induction s as [|c s (IH1 & IH2 & IH3 & IH4)]; [done|].
  cbn [str_filter]. destruct (re_word_or_space c) eqn:Hc; [|done].
  destruct (sanitised_char c Hc) as (H0 & H1 & H2 & H3).
  cbn [str_replace has_char str_filter].
  rewrite H0, H1, H2, H3, IH1, IH2, IH3. cbn [orb str_replace].
  rewrite H1, IH4. done.
Qed.

(** ** Construction, once more *)

Lemma str_split_join_plain (entries : list string) :
  entries <> [] ->
  Forall (fun x => has_char "," x = false) entries ->
  str_split "," (join_comma entries) = entries.
Proof.
  induction entries as [|x entries IH]; [done|]. intros _ Hall.
  inversion Hall as [|? ? Hx Hall']; subst.
  rewrite str_split_join_cons by done.
  destruct entries as [|y entries]; [done|]. f_equal. by apply IH.
Qed.

(** The loop over [CTF_DOCKER_ENV] changes [environ] only. *)
Lemma env_loop_fields entries : forall w r w',
  env_loop entries w = (r, w') ->
  r <> Diverge /\ trace w' = trace w /\ fs w' = fs w
  /\ container (self w') = container (self w)
  /\ running (self w') = running (self w)
  /\ ip_address (self w') = ip_address (self w)
  /\ volumes (self w') = volumes (self w).
Proof.
  induction entries as [|x entries IH]; intros w r w'.
  - by intros [= <- <-].
  - cbn [for_each]. unfold bind at 1.
    destruct (str_split1 "=" x) as [|a [|b [|c l]]]; try by intros [= <- <-].
    cbn [unpack2 ret bind modify_self get_self set_self fst snd].
    intros H. by apply IH in H.
Qed.

Lemma env_block_fields w1 r w2 :
  env_block w1 = (r, w2) ->
  r = Ok tt /\ fs w2 = fs w1
  /\ container (self w2) = container (self w1)
  /\ running (self w2) = running (self w1)
  /\ ip_address (self w2) = ip_address (self w1)
  /\ volumes (self w2) = volumes (self w1)
  /\ (trace w2 = trace w1
      \/ exists e, trace w2 = EvLog ERROR "Cannot parse CTF_DOCKER_ENV variable, %s" [LExn e]
                              :: trace w1).
Proof.
  unfold try_except. unfold bind at 1. cbn [get_os_environ].
  destruct (os_environ w1 !! "CTF_DOCKER_ENV") as [s|].
  - destruct (env_loop (str_split "," s) w1) as [r1 w'] eqn:E.
    destruct (env_loop_fields _ _ _ _ E) as (Hd & Ht & Hf & Hc & Hr & Hi & Hv).
    destruct r1 as [[]|e|]; [| |done].
    + intros [= <- <-]. repeat split; try done. by left.
    + cbn [emit]. intros [= <- <-]. cbn. repeat split; try done.
      right. exists e. by rewrite Ht.
  - intros [= <- <-]. repeat split; try done. by left.
Qed.

Lemma init_volumes_stage_fields image name0 ri od so vols ep kw w :
  exists w1,
    __init__ image name0 ri od so vols ep kw w = env_block w1
    /\ fs w1 = fs w /\ container (self w1) = None /\ running (self w1) = false
    /\ ip_address (self w1) = None
    /\ (trace w1 = trace w
        \/ exists e, trace w1 = EvLog ERROR "Cannot parse CTF_DOCKER_VOLUME variable %s" [LExn e]
                                :: trace w).
Proof.
  unfold __init__.
  unfold bind at 1. cbn [set_self].
  unfold bind at 1. unfold try_except at 1. unfold bind at 1.
  cbn [get_os_environ with_self os_environ].
  destruct (os_environ w !! "CTF_DOCKER_VOLUMES") as [s|]; [destruct vols as [l|]|];
    eexists; (split; [reflexivity|]); cbn; repeat split; try done; try (by left).
  right. by eexists.
Qed.

(** X12. With no explicit volume list, [CTF_DOCKER_VOLUMES] becomes the
    handle's volume list, entry by entry (the text between the commas); the
    only record the construction may log is about the other variable. *)
Theorem init_volumes_from_environment image name0 ri od so ep kw w (entries : list string) :
  entries <> [] ->
  Forall (fun x => has_char "," x = false) entries ->
  os_environ w !! "CTF_DOCKER_VOLUMES" = Some (join_comma entries) ->
  (__init__ image name0 ri od so None ep kw w).1 = Ok tt
  /\ volumes (self (__init__ image name0 ri od so None ep kw w).2) = Some entries
  /\ (trace (__init__ image name0 ri od so None ep kw w).2 = trace w
      \/ exists e, trace (__init__ image name0 ri od so None ep kw w).2
                   = EvLog ERROR "Cannot parse CTF_DOCKER_ENV variable, %s" [LExn e]
                     :: trace w).
Proof.
  intros Hne Hall Hs.
  destruct (init_volumes_stage image name0 ri od so None ep kw w) as (w1 & -> & _ & _ & Hv).
  rewrite Hs in Hv. destruct Hv as [Hv Ht].
  destruct (init_env_stage w1) as (w2 & -> & Hv2 & Htr & _).
  cbn [fst snd]. split; [done|]. split.
  - rewrite Hv2, Hv. f_equal. by apply str_split_join_plain.
  - by rewrite <- Ht.
Qed.

Lemma init_volumes_from_environment_witness :
  let r := __init__ "img" None false "output" true None None ∅
             (fresh_world {["CTF_DOCKER_VOLUMES" := "/out:/in:z,/out2:/in2:z"]}) in
  r.1 = Ok tt /\ volumes (self r.2) = Some ["/out:/in:z"; "/out2:/in2:z"].
Proof.
  destruct (init_volumes_from_environment "img" None false "output" true None ∅
              (fresh_world {["CTF_DOCKER_VOLUMES" := "/out:/in:z,/out2:/in2:z"]})
              ["/out:/in:z"; "/out2:/in2:z"]) as (H1 & H2 & _).
  - discriminate.
  - repeat constructor.
  - reflexivity.
  - split; [exact H1 | exact H2].
Defined.

(** X13. Construction talks neither to the engine nor to the filesystem:
    whatever the arguments and the overrides, the new handle has no
    container, is not running and has no address, the filesystem is as it
    was, and the only events are at most two error records of the logger. *)
Theorem init_is_local image name0 ri od so vols ep kw w :
  container (self (__init__ image name0 ri od so vols ep kw w).2) = None
  /\ running (self (__init__ image name0 ri od so vols ep kw w).2) = false
  /\ ip_address (self (__init__ image name0 ri od so vols ep kw w).2) = None
  /\ fs (__init__ image name0 ri od so vols ep kw w).2 = fs w
  /\ exists new,
       trace (__init__ image name0 ri od so vols ep kw w).2 = new ++ trace w
       /\ Forall (fun e => is_error_log e = true) new
       /\ (length new <= 2)%nat.
Proof.
  destruct (init_volumes_stage_fields image name0 ri od so vols ep kw w)
    as (w1 & -> & Hf & Hc & Hr & Hi & Ht).
  destruct (env_block w1) as [r w2] eqn:E.
  destruct (env_block_fields _ _ _ E) as (_ & Hf2 & Hc2 & Hr2 & Hi2 & _ & Ht2).
  cbn [snd]. rewrite Hc2, Hr2, Hi2, Hf2. repeat split; try done.
  destruct Ht as [Ht | [e1 Ht]], Ht2 as [Ht2 | [e2 Ht2]]; rewrite Ht2, Ht.
  - exists []. simpl. repeat split; [constructor | lia].
  - eexists [_]. simpl. repeat split; [repeat constructor | lia].
  - eexists [_]. simpl. repeat split; [repeat constructor | lia].
  - eexists [_; _]. simpl. repeat split; [repeat constructor | lia].
Qed.

(** ** Creation and start, in full *)

Section CreateFull.
Context (d : Engine) (lib : PyLib).

Lemma move_host_args_host_other names : forall ha (kw : gmap string pyval) k,
  kw !! k = None ->
  (foldl (move_host_arg lib) (ha, kw) names).1 !! k = ha !! k.
Proof.
  induction names as [|a names IH]; intros ha kw k Hk; [done|].
  cbn [foldl]. unfold move_host_arg at 2.
  destruct (kw !! a) as [v|] eqn:Ha.
  - rewrite IH.
    + apply lookup_insert_ne. intros ->. congruence.
    + destruct (decide (a = k)) as [->|Hne]; [apply lookup_delete_eq|].
      by rewrite lookup_delete_ne.
  - by apply IH.
Qed.

Lemma move_host_args_moved names : forall ha (kw : gmap string pyval) k v,
  k ∈ names ->
  kw !! k = Some v ->
  (foldl (move_host_arg lib) (ha, kw) names).1 !! k
  = Some (match py_int lib v with Some z => PInt z | None => v end).
Proof.
  induction names as [|a names IH]; intros ha kw k v Hin Hk.
  - by apply elem_of_nil in Hin.
  - cbn [foldl]. unfold move_host_arg at 2.
    destruct (decide (a = k)) as [->|Hne].
    + rewrite Hk. rewrite move_host_args_host_other by apply lookup_delete_eq.
      apply lookup_insert_eq.
    + apply elem_of_cons in Hin as [->|Hin]; [done|].
      destruct (kw !! a) as [va|].
      * apply IH; [done|]. by rewrite lookup_delete_ne.
      * by apply IH.
Qed.

Lemma move_host_args_in names : forall ha (kw : gmap string pyval) k,
  k ∈ names ->
  (foldl (move_host_arg lib) (ha, kw) names).2 !! k = None.
Proof.
  induction names as [|a names IH]; intros ha kw k Hin.
  - by apply elem_of_nil in Hin.
  - cbn [foldl]. unfold move_host_arg at 2.
    destruct (decide (a = k)) as [->|Hne].
    + destruct (kw !! k) as [v|] eqn:Hk.
      * apply move_host_args_absent. apply lookup_delete_eq.
      * by apply move_host_args_absent.
    + apply elem_of_cons in Hin as [->|Hin]; [done|].
      destruct (kw !! a) as [va|]; by apply IH.
Qed.

End CreateFull.

Section CreateOutcome.
Context (d : Engine) (lib : PyLib).

(** What [_create_container] does on a handle that is not running, with
    kwargs of the expected shapes: the request it sends, the host arguments
    it builds, and how the reply of the engine ends it. *)
Lemma create_container_outcome kw w (kenv : option (gmap string string))
    (jtext : option string) (jenv : gmap string string) :
  running (self w) = false ->
  kw !! "environment" = PDict <$> kenv ->
  kw !! "env_json" = PStr <$> jtext ->
  match jtext with Some s => json_loads lib s = inr jenv | None => jenv = ∅ end ->
  "environment" ∉ create_host_config_varnames lib ->
  (forall k, k ∈ create_keywords -> kw !! k = None) ->
  (forall args, exists hc, create_host_config_reply d args = inr hc) ->
  let names := create_host_config_varnames lib ++ ["cpu_quota"; "cpu_period"; "mem_limit"] in
  let vols := match volumes (self w) with Some (v :: l) => Some (v :: l) | _ => None end in
  exists req ha w1,
    _create_container d lib kw w
    = match create_container_reply d (count_ev is_create (trace w)) req with
      | inl e => (Raise e, w1)
      | inr c => (Ok tt, with_self (with_container (Some c) (self w)) w1)
      end
    /\ self w1 = self w /\ fs w1 = fs w
    /\ (exists l1, trace w1 = EvCreateContainer req :: l1 ++ trace w
                   /\ Forall (fun e => match e with EvLog _ _ _ | EvLogCreating _ _ => True
                                                  | _ => False end) l1)
    /\ cr_image req = image_id (self w) /\ cr_entrypoint req = entrypoint (self w)
    /\ cr_volumes req
       = match vols with
         | Some l => Some (map (fun volume => hd "" (str_split ":" volume)) l)
         | None => None
         end
    /\ create_host_config_reply d ha = inr (cr_host_config req)
    /\ (forall k, k ∈ names -> cr_kwargs req !! k = None)
    /\ (forall k, k ∉ names -> k <> "environment" -> k <> "env_json" ->
        cr_kwargs req !! k = kw !! k)
    /\ (forall k v, k ∈ names -> k <> "env_json" -> kw !! k = Some v ->
        ha !! k = Some (match py_int lib v with Some z => PInt z | None => v end))
    /\ (forall k, kw !! k = None -> k <> "environment" ->
        ha !! k = match vols with
                  | Some l => ({["binds" := PList l]} : gmap string pyval) !! k
                  | None => None
                  end).
Proof.
  intros Hrun Henv Hjson Hdec Hnames Hclash Hhc names vols.
  unfold _create_container. unfold bind at 1. cbn [get_self]. rewrite Hrun.
  unfold bind at 1. rewrite Henv.
  assert (match PDict <$> kenv with Some v => as_dict v | None => ret ∅ end w
          = (Ok (default ∅ kenv), w)) as -> by by destruct kenv.
  unfold bind at 1. rewrite lookup_insert_ne, Hjson by done.
  assert (exists kw0,
    match PStr <$> jtext with
    | Some v =>
        env <- match v with
               | PStr s => match json_loads lib s with inl e => raise e | inr env => ret env end
               | _ => raise (TypeError ("the JSON object must be str, bytes or bytearray, not "
                                                 +:+ py_type_name v))
               end ;;
        kwargs_env0 <- match <["environment":=PDict (environ (self w) ∪ default ∅ kenv)]> kw
                             !! "environment" with
                       | Some v0 => as_dict v0
                       | None => ret ∅
                       end ;;
        ret (delete "env_json"
               (<["environment":=PDict (env ∪ kwargs_env0)]>
                  (<["environment":=PDict (environ (self w) ∪ default ∅ kenv)]> kw)))
    | None => ret (<["environment":=PDict (environ (self w) ∪ default ∅ kenv)]> kw)
    end w = (Ok kw0, w)
    /\ (exists m, kw0 !! "environment" = Some (PDict m))
    /\ (forall k, k <> "environment" -> k <> "env_json" -> kw0 !! k = kw !! k)
    /\ (forall k, k <> "environment" -> kw !! k = None -> kw0 !! k = None))
    as (kw0 & -> & [menv Hk1] & Hk2 & Hk3).
  { destruct jtext as [s|]; cbn [fmap option_fmap option_map].
    - unfold bind at 1. rewrite Hdec. cbn [ret].
      unfold bind at 1. rewrite lookup_insert_eq. cbn [as_dict ret].
      eexists. split; [reflexivity|]. split; [|split].
      + eexists. by rewrite lookup_delete_ne, lookup_insert_eq by done.
      + intros k H1 H2. by rewrite lookup_delete_ne, !lookup_insert_ne by done.
      + intros k H1 H2. destruct (decide (k = "env_json")) as [->|H3].
        * apply lookup_delete_eq.
        * by rewrite lookup_delete_ne, !lookup_insert_ne by done.
    - cbn [ret]. eexists. split; [reflexivity|]. split; [|split].
      + eexists. by rewrite lookup_insert_eq.
      + intros k H1 H2. by rewrite lookup_insert_ne by done.
      + intros k H1 H2. by rewrite lookup_insert_ne by done. }
  unfold bind at 1. cbn [emit].
  assert ("environment" ∉ names) as Hnames'.
  { subst names. rewrite elem_of_app, !elem_of_cons, elem_of_nil. intuition discriminate. }
  set (ha0 := match vols with
              | Some l => ({["binds" := PList l]} : gmap string pyval)
              | None => ∅
              end).
  pose proof (move_host_args_other lib names ha0 kw0) as Hm1.
  pose proof (move_host_args_absent lib names ha0 kw0) as Hm2.
  pose proof (move_host_args_in lib names ha0 kw0) as Hm3.
  pose proof (move_host_args_moved lib names ha0 kw0) as Hm4.
  pose proof (move_host_args_host_other lib names ha0 kw0) as Hm5.
  fold vols. fold ha0. fold names.
  destruct (foldl (move_host_arg lib) (ha0, kw0) names) as [ha kw1].
  cbn [fst snd] in Hm1, Hm2, Hm3, Hm4, Hm5.
  unfold bind at 1. rewrite (Hm1 "environment" Hnames'), Hk1. cbn [ret].
  unfold bind at 1. cbn [emit].
  unfold bind at 1. destruct (Hhc ha) as [hc Hhc']. rewrite Hhc'. cbn [ret].
  assert (existsb (fun k => bool_decide (is_Some (kw1 !! k))) create_keywords = false) as ->.
  { apply not_true_is_false. intros Hex.
    apply existsb_exists in Hex as (k & Hin & Hk).
    apply bool_decide_eq_true_1 in Hk. apply list_elem_of_In in Hin.
    assert (k <> "environment") as Hke.
    { intros ->; revert Hin; unfold create_keywords;
        rewrite !elem_of_cons, elem_of_nil; intuition discriminate. }
    rewrite (Hm2 k (Hk3 k Hke (Hclash k Hin))) in Hk. by destruct Hk. }
  run_m.
  exists {| cr_image := image_id (self w); cr_entrypoint := entrypoint (self w);
            cr_volumes := match vols with
                          | Some l => Some (map (fun volume => hd "" (str_split ":" volume)) l)
                          | None => None
                          end;
            cr_host_config := hc; cr_kwargs := kw1 |}, ha.
  eexists. split.
  { fold vols. destruct (create_container_reply _ _ _); simpl; reflexivity. }
  cbn. split; [done|]. split; [done|]. split.
  { eexists [_; _]. split; [reflexivity|]. repeat constructor. }
  split; [done|]. split; [done|]. split; [done|]. split; [done|].
  split; [exact Hm3|]. split; [|split].
  - intros k H1 H2 H3. rewrite Hm1 by done. by apply Hk2.
  - intros k v H1 H2 H3. apply Hm4; [done|].
    rewrite Hk2; [done| |done]. intros ->. by apply Hnames'.
  - intros k H1 H2. rewrite Hm5 by by apply Hk3.
    subst ha0. by destruct vols.
Qed.

End CreateOutcome.

Section StartOutcome.
Context (d : Engine) (lib : PyLib).
Context (kw : gmap string pyval) (w : world).
Context (kenv : option (gmap string string)) (jtext : option string)
        (jenv : gmap string string).
Hypothesis Hrun : running (self w) = false.
Hypothesis Henv : kw !! "environment" = PDict <$> kenv.
Hypothesis Hjson : kw !! "env_json" = PStr <$> jtext.
Hypothesis Hdec :
  match jtext with Some s => json_loads lib s = inr jenv | None => jenv = ∅ end.
Hypothesis Hnames : "environment" ∉ create_host_config_varnames lib.
Hypothesis Hclash : forall k, k ∈ create_keywords -> kw !! k = None.
Hypothesis Hhc : forall args, exists hc, create_host_config_reply d args = inr hc.

(** The request that [start] sends, found in the trace after [start]. *)
Lemma start_request :
  let names := create_host_config_varnames lib ++ ["cpu_quota"; "cpu_period"; "mem_limit"] in
  let vols := match volumes (self w) with Some (v :: l) => Some (v :: l) | _ => None end in
  exists req ha,
    In (EvCreateContainer req) (trace (start d lib kw w).2)
    /\ cr_volumes req
       = match vols with
         | Some l => Some (map (fun volume => hd "" (str_split ":" volume)) l)
         | None => None
         end
    /\ create_host_config_reply d ha = inr (cr_host_config req)
    /\ (forall k, k ∈ names -> cr_kwargs req !! k = None)
    /\ (forall k, k ∉ names -> k <> "environment" -> k <> "env_json" ->
        cr_kwargs req !! k = kw !! k)
    /\ (forall k v, k ∈ names -> k <> "env_json" -> kw !! k = Some v ->
        ha !! k = Some (match py_int lib v with Some z => PInt z | None => v end))
    /\ (forall k, kw !! k = None -> k <> "environment" ->
        ha !! k = match vols with
                  | Some l => ({["binds" := PList l]} : gmap string pyval) !! k
                  | None => None
                  end).
Proof.
  intros names vols.
  destruct (create_container_outcome d lib kw w kenv jtext jenv
              Hrun Henv Hjson Hdec Hnames Hclash Hhc)
    as (req & ha & w1 & Hc & Hs & Hf & (l1 & Ht & _) & _ & _ & Hv & Hh & H1 & H2 & H3 & H4).
  exists req, ha. split; [|by repeat split].
  unfold start, bind. rewrite Hc.
  destruct (create_container_reply _ _ _) as [e|c].
  - cbn [snd]. rewrite Ht. by left.
  - destruct (start_created d _) as [r2 w2] eqn:E. cbn [snd].
    destruct (start_created_trace d _ _ _ E) as (new & -> & _).
    cbn [trace with_self]. rewrite Ht. apply in_or_app. right. by left.
Qed.

(** X14. A [start] on a handle that is not running, when the engine accepts
    the creation, the start and the inspection: the handle holds the
    container the engine returned, is running, and has the address that the
    inspection reported; one creation request and one start request were
    sent. *)
Theorem start_succeeds c info :
  (forall req, create_container_reply d (count_ev is_create (trace w)) req = inr c) ->
  start_reply d (count_ev is_start (trace w)) c = None ->
  inspect_container_reply d (count_ev is_inspect (trace w)) (Id c) = inr info ->
  (start d lib kw w).1 = Ok tt
  /\ container (self (start d lib kw w).2) = Some c
  /\ running (self (start d lib kw w).2) = true
  /\ ip_address (self (start d lib kw w).2) = Some (NetworkSettings_IPAddress info)
  /\ count_ev is_create (trace (start d lib kw w).2) = S (count_ev is_create (trace w))
  /\ count_ev is_start (trace (start d lib kw w).2) = S (count_ev is_start (trace w)).
Proof.
  intros Hcreate Hstart Hinsp.
  destruct (create_container_outcome d lib kw w kenv jtext jenv
              Hrun Henv Hjson Hdec Hnames Hclash Hhc)
    as (req & ha & w1 & Hc & Hs & Hf & (l1 & Ht & Hl1) & _).
  assert (count_ev is_create l1 = O /\ count_ev is_start l1 = O
          /\ count_ev is_inspect l1 = O) as (Hl1c & Hl1s & Hl1i).
  { clear -Hl1. induction Hl1 as [|e l He Hl IH]; [done|].
    destruct e; try done; simpl; exact IH. }
  unfold start, bind. rewrite Hc, Hcreate.
  unfold start_created. run_m. rewrite Ht. simpl.
  rewrite !count_ev_app, Hl1s. simpl. rewrite Hstart. simpl.
  rewrite !count_ev_app, Hl1i. simpl. rewrite Hinsp. simpl.
  rewrite !count_ev_app, Hl1c, Hl1s. by repeat split.
Qed.

(** X15. When the engine refuses the creation, [start] raises that error
    after the one creation request: the handle has the container reference
    and the address it had and is not running, and neither a start request
    nor an inspection was sent. *)
Theorem start_creation_refused e :
  (forall req, create_container_reply d (count_ev is_create (trace w)) req = inl e) ->
  (start d lib kw w).1 = Raise e
  /\ container (self (start d lib kw w).2) = container (self w)
  /\ running (self (start d lib kw w).2) = false
  /\ ip_address (self (start d lib kw w).2) = ip_address (self w)
  /\ count_ev is_create (trace (start d lib kw w).2) = S (count_ev is_create (trace w))
  /\ count_ev is_start (trace (start d lib kw w).2) = count_ev is_start (trace w)
  /\ count_ev is_inspect (trace (start d lib kw w).2) = count_ev is_inspect (trace w).
Proof.
  intros Hcreate.
  destruct (create_container_outcome d lib kw w kenv jtext jenv
              Hrun Henv Hjson Hdec Hnames Hclash Hhc)
    as (req & ha & w1 & Hc & Hs & Hf & (l1 & Ht & Hl1) & _).
  assert (count_ev is_create l1 = O /\ count_ev is_start l1 = O
          /\ count_ev is_inspect l1 = O) as (Hl1c & Hl1s & Hl1i).
  { clear -Hl1. induction Hl1 as [|x l He Hl IH]; [done|].
    destruct x; try done; simpl; exact IH. }
  unfold start, bind. rewrite Hc, Hcreate. cbn [fst snd].
  rewrite Ht. simpl. rewrite !count_ev_app, Hl1c, Hl1s, Hl1i, Hs.
  by repeat split.
Qed.

(** X16. When the engine creates the container but refuses to start it,
    [start] raises that error with the container reference set and
    [running] false; used through [with], the body and [__exit__] are not
    run, so no removal is requested and the container stays in the engine. *)
Theorem start_refused_leaves_container c e {A} (fuel : nat) (body : M A) :
  kwargs (self w) = kw ->
  (forall req, create_container_reply d (count_ev is_create (trace w)) req = inr c) ->
  start_reply d (count_ev is_start (trace w)) c = Some e ->
  (start d lib kw w).1 = Raise e
  /\ container (self (start d lib kw w).2) = Some c
  /\ running (self (start d lib kw w).2) = false
  /\ with_handle d lib fuel body w = (Raise e, (start d lib kw w).2)
  /\ count_ev is_remove (trace (start d lib kw w).2) = count_ev is_remove (trace w).
Proof.
  intros Hkw Hcreate Hstart.
  destruct (create_container_outcome d lib kw w kenv jtext jenv
              Hrun Henv Hjson Hdec Hnames Hclash Hhc)
    as (req & ha & w1 & Hc & Hs & Hf & (l1 & Ht & Hl1) & _).
  assert (count_ev is_start l1 = O /\ count_ev is_remove l1 = O) as (Hl1s & Hl1r).
  { clear -Hl1. induction Hl1 as [|x l He Hl IH]; [done|].
    destruct x; try done; simpl; exact IH. }
  assert (start d lib kw w
          = (Raise e, with_trace (EvStart c :: EvLog DEBUG ("Starting container '" +:+ Id c
                                                            +:+ "'...") [] :: trace w1)
                        (with_self (with_container (Some c) (self w)) w1))) as Hst.
  { unfold start, bind. rewrite Hc, Hcreate.
    unfold start_created. run_m. rewrite Ht. simpl.
    rewrite !count_ev_app, Hl1s. simpl. by rewrite Hstart. }
  unfold with_handle, __enter__. unfold bind at 1 2. cbn [get_self].
  rewrite Hkw, Hst. cbn. rewrite Hrun, Ht. simpl. rewrite count_ev_app, Hl1r.
  by repeat split.
Qed.

End StartOutcome.

Lemma example_lib_names : "environment" ∉ create_host_config_varnames example_lib.
Proof. cbn. rewrite !elem_of_cons, elem_of_nil. intuition discriminate. Qed.

Lemma no_keyword_clash_empty : forall k, k ∈ create_keywords -> (∅ : gmap string pyval) !! k = None.
Proof. intros k _. apply lookup_empty. Qed.

Lemma start_succeeds_witness :
  let d := example_engine 0 (fun _ => Some 0%Z) in
  let w := constructed_world ∅ in
  (start d example_lib ∅ w).1 = Ok tt
  /\ container (self (start d example_lib ∅ w).2) = Some {| Id := "c0ffee0" |}
  /\ running (self (start d example_lib ∅ w).2) = true
  /\ ip_address (self (start d example_lib ∅ w).2) = Some "172.17.0.2".
Proof.
  intros d w.
  destruct (start_succeeds d example_lib ∅ w None None ∅) with
      (c := {| Id := "c0ffee0" |})
      (info := {| State_Running := true; NetworkSettings_IPAddress := "172.17.0.2" |})
    as (H1 & H2 & H3 & H4 & _).
  - reflexivity.
  - reflexivity.
  - reflexivity.
  - reflexivity.
  - exact example_lib_names.
  - exact no_keyword_clash_empty.
  - intros args. by exists args.
  - intros req. reflexivity.
  - reflexivity.
  - reflexivity.
  - split; [exact H1|]. split; [exact H2|]. split; [exact H3 | exact H4].
Defined.

Lemma start_creation_refused_witness :
  let d := refusing_engine false true in
  let w := constructed_world ∅ in
  (start d example_lib ∅ w).1 = Raise (EngineError "no such image")
  /\ container (self (start d example_lib ∅ w).2) = None
  /\ count_ev is_create (trace (start d example_lib ∅ w).2) = 1%nat.
Proof.
  intros d w.
  destruct (start_creation_refused d example_lib ∅ w None None ∅) with
      (e := EngineError "no such image") as (H1 & H2 & _ & _ & H3 & _).
  - reflexivity.
  - reflexivity.
  - reflexivity.
  - reflexivity.
  - exact example_lib_names.
  - exact no_keyword_clash_empty.
  - intros args. by exists args.
  - intros req. reflexivity.
  - split; [exact H1|]. split; [exact H2 | exact H3].
Defined.

Lemma start_refused_leaves_container_witness :
  let d := refusing_engine true false in
  let w := constructed_world ∅ in
  with_handle d example_lib 4 (ret tt) w
  = (Raise (EngineError "port is already allocated"), (start d example_lib ∅ w).2)
  /\ container (self (start d example_lib ∅ w).2) = Some {| Id := "c0ffee0" |}
  /\ count_ev is_remove (trace (start d example_lib ∅ w).2) = 0%nat.
Proof.
  intros d w.
  destruct (start_refused_leaves_container d example_lib ∅ w None None ∅) with
      (c := {| Id := "c0ffee0" |}) (e := EngineError "port is already allocated")
      (fuel := 4%nat) (body := ret tt) (A := unit)
    as (_ & H2 & _ & H4 & H5).
  - reflexivity.
  - reflexivity.
  - reflexivity.
  - reflexivity.
  - exact example_lib_names.
  - exact no_keyword_clash_empty.
  - intros args. by exists args.
  - reflexivity.
  - intros req. reflexivity.
  - reflexivity.
  - split; [exact H4|]. split; [exact H2 | exact H5].
Defined.

(** X17. The volumes of the creation request are the texts before the first
    colon of the handle's bind specifications (the host side of
    [host:container:mode]), and the whole specifications go to the host
    configuration as [binds]. *)
Theorem start_volume_mount_points (d : Engine) (lib : PyLib) kw w kenv jtext jenv
    (specs : list (string * string)) :
  running (self w) = false ->
  kw !! "environment" = PDict <$> kenv ->
  kw !! "env_json" = PStr <$> jtext ->
  match jtext with Some s => json_loads lib s = inr jenv | None => jenv = ∅ end ->
  "environment" ∉ create_host_config_varnames lib ->
  (forall k, k ∈ create_keywords -> kw !! k = None) ->
  (forall args, exists hc, create_host_config_reply d args = inr hc) ->
  specs <> [] ->
  Forall (fun p => has_char ":" p.1 = false) specs ->
  volumes (self w) = Some (map (fun p => p.1 +:+ ":" +:+ p.2) specs) ->
  kw !! "binds" = None ->
  exists req ha,
    In (EvCreateContainer req) (trace (start d lib kw w).2)
    /\ cr_volumes req = Some (map fst specs)
    /\ create_host_config_reply d ha = inr (cr_host_config req)
    /\ ha !! "binds" = Some (PList (map (fun p => p.1 +:+ ":" +:+ p.2) specs)).
Proof.
  intros Hrun Henv Hjson Hdec Hnames Hclash Hhc Hne Hall Hvol Hbinds.
  destruct (start_request d lib kw w kenv jtext jenv Hrun Henv Hjson Hdec Hnames Hclash Hhc)
    as (req & ha & Hin & Hv & Hh & _ & _ & _ & Hb).
  exists req, ha. split; [done|].
  rewrite Hvol in Hv, Hb.
  destruct specs as [|p specs]; [done|]. cbn [map] in Hv, Hb.
  split; [|split; [done|]].
  - rewrite Hv. f_equal. clear -Hall.
    change (map (fun volume => hd "" (str_split ":" volume))
              (map (fun p => p.1 +:+ ":" +:+ p.2) (p :: specs)) = map fst (p :: specs)).
    induction Hall as [|q l Hq Hl IH]; [done|]. cbn [map]. f_equal; [|exact IH].
    change (q.1 +:+ ":" +:+ q.2) with (q.1 +:+ String ":" q.2).
    by rewrite str_split_app.
  - rewrite (Hb "binds" Hbinds) by done. apply lookup_singleton_eq.
Qed.

Lemma start_volume_mount_points_witness :
  let d := example_engine 0 (fun _ => Some 0%Z) in
  let w := (__init__ "img" None false "output" true (Some ["/srv/data:/data:z"]) None ∅
              (fresh_world ∅)).2 in
  exists req,
    In (EvCreateContainer req) (trace (start d example_lib ∅ w).2)
    /\ cr_volumes req = Some ["/srv/data"].
Proof.
  intros d w.
  destruct (start_volume_mount_points d example_lib ∅ w None None ∅ [("/srv/data", "/data:z")])
    as (req & ha & H1 & H2 & _).
  - reflexivity.
  - reflexivity.
  - reflexivity.
  - reflexivity.
  - exact example_lib_names.
  - exact no_keyword_clash_empty.
  - intros args. by exists args.
  - discriminate.
  - repeat constructor.
  - reflexivity.
  - reflexivity.
  - exists req. split; [exact H1 | exact H2].
Defined.

(** X18. Every keyword of [start] whose name is a host-configuration
    parameter is taken out of the kwargs of the creation request and handed
    to the host configuration, as an integer when [int] accepts it (a
    boolean becomes 1 or 0, a decimal text its number); the other keywords
    reach the request unchanged. *)
Theorem start_host_arguments (d : Engine) (lib : PyLib) kw w kenv jtext jenv :
  running (self w) = false ->
  kw !! "environment" = PDict <$> kenv ->
  kw !! "env_json" = PStr <$> jtext ->
  match jtext with Some s => json_loads lib s = inr jenv | None => jenv = ∅ end ->
  "environment" ∉ create_host_config_varnames lib ->
  (forall k, k ∈ create_keywords -> kw !! k = None) ->
  (forall args, exists hc, create_host_config_reply d args = inr hc) ->
  let names := create_host_config_varnames lib ++ ["cpu_quota"; "cpu_period"; "mem_limit"] in
  exists req ha,
    In (EvCreateContainer req) (trace (start d lib kw w).2)
    /\ create_host_config_reply d ha = inr (cr_host_config req)
    /\ (forall k v, k ∈ names -> k <> "env_json" -> kw !! k = Some v ->
        cr_kwargs req !! k = None
        /\ ha !! k = Some (match v with
                           | PInt z => PInt z
                           | PBool b => PInt (if b then 1 else 0)
                           | PStr s => match int_of_str lib s with
                                       | Some z => PInt z
                                       | None => PStr s
                                       end
                           | _ => v
                           end))
    /\ (forall k, k ∉ names -> k <> "environment" -> k <> "env_json" ->
        cr_kwargs req !! k = kw !! k).
Proof.
  intros Hrun Henv Hjson Hdec Hnames Hclash Hhc names.
  destruct (start_request d lib kw w kenv jtext jenv Hrun Henv Hjson Hdec Hnames Hclash Hhc)
    as (req & ha & Hin & _ & Hh & H1 & H2 & H3 & _).
  exists req, ha. split; [done|]. split; [done|]. split; [|done].
  intros k v Hk Hne Hkv. split; [by apply H1|].
  rewrite (H3 k v Hk Hne Hkv). by destruct v as [|b|z|s|l|m].
Qed.

Lemma start_host_arguments_witness :
  let d := example_engine 0 (fun _ => Some 0%Z) in
  let kw : gmap string pyval :=
    {[ "mem_limit" := PStr "512"; "privileged" := PBool true; "hostname" := PStr "web" ]} in
  let w := constructed_world ∅ in
  exists req ha,
    In (EvCreateContainer req) (trace (start d example_lib kw w).2)
    /\ create_host_config_reply d ha = inr (cr_host_config req)
    /\ cr_kwargs req !! "mem_limit" = None
    /\ ha !! "mem_limit" = Some (PInt 512)
    /\ ha !! "privileged" = Some (PInt 1)
    /\ cr_kwargs req !! "hostname" = Some (PStr "web").
Proof.
  intros d kw w.
  destruct (start_host_arguments d example_lib kw w None None ∅)
    as (req & ha & H1 & H2 & H3 & H4).
  - reflexivity.
  - reflexivity.
  - reflexivity.
  - reflexivity.
  - exact example_lib_names.
  - intros k. unfold create_keywords. rewrite !elem_of_cons, elem_of_nil.
    intros [-> | [-> | [-> | [-> | [-> | []]]]]]; reflexivity.
  - intros args. by exists args.
  - exists req, ha. split; [exact H1|]. split; [exact H2|].
    destruct (H3 "mem_limit" (PStr "512")) as [H5 H6].
    { cbn. rewrite !elem_of_cons. tauto. }
    { discriminate. }
    { reflexivity. }
    destruct (H3 "privileged" (PBool true)) as [_ H7].
    { cbn. rewrite !elem_of_cons. tauto. }
    { discriminate. }
    { reflexivity. }
    split; [exact H5|]. split; [exact H6|]. split; [exact H7|].
    rewrite H4.
    + reflexivity.
    + cbn. rewrite !elem_of_cons, elem_of_nil. intuition discriminate.
    + discriminate.
    + discriminate.
Defined.

(** X19. [startWithCommand] asks for a pseudo-terminal: its creation request
    carries [tty=True].  A [tty] among its own keyword arguments is a
    [TypeError] before anything is sent, and the handle is left as it was. *)
Theorem start_with_command_tty (d : Engine) (lib : PyLib) kw w kenv jtext jenv :
  (forall v, kw !! "tty" = Some v ->
   startWithCommand d lib kw w
   = (Raise (TypeError "_create_container() got multiple values for keyword argument 'tty'"),
      w))
  /\ (kw !! "tty" = None ->
      running (self w) = false ->
      kw !! "environment" = PDict <$> kenv ->
      kw !! "env_json" = PStr <$> jtext ->
      match jtext with Some s => json_loads lib s = inr jenv | None => jenv = ∅ end ->
      "environment" ∉ create_host_config_varnames lib ->
      "tty" ∉ create_host_config_varnames lib ->
      (forall k, k ∈ create_keywords -> kw !! k = None) ->
      (forall args, exists hc, create_host_config_reply d args = inr hc) ->
      exists req,
        In (EvCreateContainer req) (trace (startWithCommand d lib kw w).2)
        /\ cr_kwargs req !! "tty" = Some (PBool true)).
Proof.
  split.
  - intros v Hv. unfold startWithCommand. unfold bind at 1.
    rewrite bool_decide_eq_true_2 by by eexists. done.
  - intros Htty Hrun Henv Hjson Hdec Hnames Hnt Hclash Hhc.
    assert (startWithCommand d lib kw w = start d lib (<["tty" := PBool true]> kw) w) as ->.
    { unfold startWithCommand, start.
      by rewrite bool_decide_eq_false_2 by (intros [? ?]; congruence). }
    destruct (start_request d lib (<["tty" := PBool true]> kw) w kenv jtext jenv)
      as (req & ha & Hin & _ & _ & _ & H2 & _); try done.
    + by rewrite lookup_insert_ne.
    + by rewrite lookup_insert_ne.
    + intros k Hk. rewrite lookup_insert_ne; [by apply Hclash|].
      intros <-. revert Hk. unfold create_keywords.
      rewrite !elem_of_cons, elem_of_nil. intuition discriminate.
    + exists req. split; [done|]. rewrite H2; [apply lookup_insert_eq| | |]; try done.
      rewrite elem_of_app, !elem_of_cons, elem_of_nil. intuition discriminate.
Qed.

Lemma start_with_command_tty_witness :
  let d := example_engine 0 (fun _ => Some 0%Z) in
  let w := constructed_world ∅ in
  startWithCommand d example_lib {[ "tty" := PBool false ]} w
  = (Raise (TypeError "_create_container() got multiple values for keyword argument 'tty'"), w)
  /\ exists req,
       In (EvCreateContainer req) (trace (startWithCommand d example_lib ∅ w).2)
       /\ cr_kwargs req !! "tty" = Some (PBool true).
Proof.
  intros d w. split.
  - destruct (start_with_command_tty d example_lib {[ "tty" := PBool false ]} w None None ∅)
      as [H _].
    apply (H (PBool false)). reflexivity.
  - destruct (start_with_command_tty d example_lib ∅ w None None ∅) as [_ H].
    apply H.
    + reflexivity.
    + reflexivity.
    + reflexivity.
    + reflexivity.
    + reflexivity.
    + exact example_lib_names.
    + cbn. rewrite !elem_of_cons, elem_of_nil. intuition discriminate.
    + exact no_keyword_clash_empty.
    + intros args. by exists args.
Defined.

(** X20. Keyword arguments of the wrong shape stop [start] before anything
    is sent or logged.  An [environment] that is not a dictionary raises
    [AttributeError] on its [update] and nothing has changed.  An [env_json]
    that [json.loads] rejects raises the decoder's error, and an [env_json]
    that is not a text raises [TypeError]: in both cases no request was
    sent, no record logged, no file touched, and the handle has the
    container, the flag and the address it had. *)
Theorem start_rejects_bad_kwargs (d : Engine) (lib : PyLib) kw w :
  running (self w) = false ->
  (forall v, kw !! "environment" = Some v -> (forall m, v <> PDict m) ->
   start d lib kw w
   = (Raise (AttributeError ("'" +:+ py_type_name v +:+ "' object has no attribute 'update'")),
      w))
  /\ (forall kenv s e,
        kw !! "environment" = PDict <$> kenv ->
        kw !! "env_json" = Some (PStr s) -> json_loads lib s = inl e ->
        (start d lib kw w).1 = Raise e /\ quiet w (start d lib kw w).2)
  /\ (forall kenv v,
        kw !! "environment" = PDict <$> kenv ->
        kw !! "env_json" = Some v -> (forall s, v <> PStr s) ->
        (start d lib kw w).1
        = Raise (TypeError ("the JSON object must be str, bytes or bytearray, not "
                            +:+ py_type_name v))
        /\ quiet w (start d lib kw w).2).
Proof.
  intros Hrun. split; [|split].
  - intros v Hv Hnd. unfold start. unfold bind at 1.
    unfold _create_container. unfold bind at 1. cbn [get_self]. rewrite Hrun.
    unfold bind at 1. rewrite Hv.
    destruct v as [|b|z|s|l|m]; try done. by destruct (Hnd m).
  - intros kenv s e Henv Hjson Hdec.
    assert (start d lib kw w = (Raise e, w)) as ->; [|by repeat split].
    unfold start. unfold bind at 1.
    unfold _create_container. unfold bind at 1. cbn [get_self]. rewrite Hrun.
    unfold bind at 1. rewrite Henv.
    assert (match PDict <$> kenv with Some v => as_dict v | None => ret ∅ end w
            = (Ok (default ∅ kenv), w)) as -> by by destruct kenv.
    unfold bind at 1. rewrite lookup_insert_ne, Hjson by done.
    unfold bind at 1. by rewrite Hdec.
  - intros kenv v Henv Hjson Hns.
    assert (start d lib kw w
            = (Raise (TypeError ("the JSON object must be str, bytes or bytearray, not "
                                 +:+ py_type_name v)), w)) as ->; [|by repeat split].
    unfold start. unfold bind at 1.
    unfold _create_container. unfold bind at 1. cbn [get_self]. rewrite Hrun.
    unfold bind at 1. rewrite Henv.
    assert (match PDict <$> kenv with Some v => as_dict v | None => ret ∅ end w
            = (Ok (default ∅ kenv), w)) as -> by by destruct kenv.
    unfold bind at 1. rewrite lookup_insert_ne, Hjson by done.
    unfold bind at 1.
    destruct v as [|b|z|s|l|m]; try done. by destruct (Hns s).
Qed.

Lemma start_rejects_bad_kwargs_witness :
  let d := example_engine 0 (fun _ => Some 0%Z) in
  let w := constructed_world ∅ in
  ((start d example_lib {[ "env_json" := PStr "oops" ]} w).1
   = Raise (ValueError "Expecting value: line 1 column 1 (char 0)")
   /\ trace (start d example_lib {[ "env_json" := PStr "oops" ]} w).2 = [])
  /\ ((start d example_lib {[ "env_json" := PInt 5 ]} w).1
      = Raise (TypeError "the JSON object must be str, bytes or bytearray, not int")
      /\ trace (start d example_lib {[ "env_json" := PInt 5 ]} w).2 = [])
  /\ start d example_lib {[ "environment" := PList ["A=1"] ]} w
     = (Raise (AttributeError "'list' object has no attribute 'update'"), w).
Proof.
  intros d w. split; [|split].
  - destruct (start_rejects_bad_kwargs d example_lib {[ "env_json" := PStr "oops" ]} w)
      as (_ & H & _); [reflexivity|].
    destruct (H None "oops" (ValueError "Expecting value: line 1 column 1 (char 0)"))
      as (H1 & H2 & _); [reflexivity | reflexivity | reflexivity |].
    split; [exact H1 | exact H2].
  - destruct (start_rejects_bad_kwargs d example_lib {[ "env_json" := PInt 5 ]} w)
      as (_ & _ & H); [reflexivity|].
    destruct (H None (PInt 5)) as (H1 & H2 & _); [reflexivity | reflexivity | |].
    + intros s. discriminate.
    + split; [exact H1 | exact H2].
  - destruct (start_rejects_bad_kwargs d example_lib {[ "environment" := PList ["A=1"] ]} w)
      as (H & _); [reflexivity|].
    apply (H (PList ["A=1"])); [reflexivity|]. intros m. discriminate.
Defined.

(** X21. Leaving a [with] block on a handle built without [remove_image]:
    when the teardown succeeds the outcome of the body comes back (its
    value, or its exception raised again) and the container reference is
    cleared; when the teardown fails, its error is the one that is raised,
    also in place of an exception of the body. *)
Theorem with_block_outcome (d : Engine) (lib : PyLib) {A} (fuel : nat) (body : M A)
    w w1 rb w2 rs w3 :
  __enter__ d lib w = (Ok tt, w1) ->
  body w1 = (rb, w2) ->
  rb <> Diverge ->
  remove_image (self w2) = false ->
  stop d fuel w2 = (rs, w3) ->
  (rs = Ok tt ->
   with_handle d lib fuel body w = (rb, w3) /\ container (self w3) = None)
  /\ (forall e, rs = Raise e -> with_handle d lib fuel body w = (Raise e, w3)).
Proof.
  intros He Hb Hd Hflag Hstop.
  destruct (stop_flag d fuel w2 rs w3 Hstop) as [Hf _].
  assert (__exit__ d fuel w2 = (rs, w3)) as Hexit.
  { unfold __exit__, bind. rewrite Hstop.
    destruct rs as [[]|e|]; try done.
    cbn [get_self getattr_remove_image truthy]. by rewrite Hf, Hflag. }
  assert (with_handle d lib fuel body w
          = match rs with Ok _ => (rb, w3) | Raise e => (Raise e, w3)
                        | Diverge => (Diverge, w3) end) as Hwith.
  { unfold with_handle, bind. rewrite He, Hb.
    destruct rb as [a|e|]; [| |done]; rewrite Hexit; by destruct rs as [[]|e'|]. }
  split.
  - intros ->. split; [done|]. by destruct (stop_ok_state d fuel w2 w3 Hstop).
  - by intros e ->.
Qed.

Lemma with_block_outcome_witness :
  let d := example_engine 0 (fun _ => Some 0%Z) in
  let w := constructed_world ∅ in
  let body : M unit := raise (ValueError "assertion failed in the test") in
  with_handle d example_lib 4 body w
  = (Raise (ValueError "assertion failed in the test"),
     (stop d 4 (__enter__ d example_lib w).2).2)
  /\ container (self (stop d 4 (__enter__ d example_lib w).2).2) = None.
Proof.
  intros d w body.
  destruct (with_block_outcome d example_lib 4 body w (__enter__ d example_lib w).2
              (Raise (ValueError "assertion failed in the test"))
              (__enter__ d example_lib w).2 (Ok tt)
              (stop d 4 (__enter__ d example_lib w).2).2) as [H _].
  - vm_compute. reflexivity.
  - reflexivity.
  - discriminate.
  - reflexivity.
  - vm_compute. reflexivity.
  - apply H. reflexivity.
Defined.

(** X22. [stop] on a handle that was only constructed does nothing: for all
    constructor arguments and overrides, it returns normally and the world
    is the one construction left. *)
Theorem stop_after_construction (d : Engine) (fuel : nat) image name0 ri od so vols ep kw w :
  stop d fuel (__init__ image name0 ri od so vols ep kw w).2
  = (Ok tt, (__init__ image name0 ri od so vols ep kw w).2).
Proof.
  destruct (init_volumes_stage_fields image name0 ri od so vols ep kw w)
    as (w1 & -> & _ & Hc & Hr & _).
  destruct (env_block w1) as [r w2] eqn:E.
  destruct (env_block_fields _ _ _ E) as (_ & _ & Hc2 & Hr2 & _).
  cbn [snd]. apply stop_nothing_to_do; [congruence|]. by rewrite Hr2, Hr.
Qed.
